(** * Tool registry of the ChatGLM3 demo: registration, dispatch, catalog

    A shallow embedding of [my_demo/tool_registry.py].

    - Python [str] values are Rocq strings holding their characters in
      UTF-8, a surrogate taking three bytes like its neighbours, so
      [s.encode()] is the byte list of the string unless the string holds
      a surrogate. Character properties are those of Unicode 14.0 and
      limits are those of CPython 3.11 as it starts.
    - Python dicts are association lists in insertion order with unique
      keys ([d[k] = v] replaces in place or appends).
    - Functions that can raise live in a state-and-exception monad over the
      two module globals [_TOOL_HOOKS] and [_TOOL_DESCRIPTIONS].
    - [print] writes to standard output, which is not part of the state
      and is taken to accept the text.
    - Module [Store] models object identity (a heap of dict and list
      objects) for [copy.deepcopy]. *)

From Stdlib Require Import ZArith Ascii String List Lia Bool.
From stdpp Require Import base gmap strings list fin_maps pretty.

Set Warnings "-register-all".
Local Open Scope string_scope.
Local Open Scope list_scope.
Local Open Scope Z_scope.

(** ** Python values *)

(** Type objects: a class ([str] is [PyClass "builtins" "str"]) or an
    instance of [types.GenericAlias], a builtin container class applied
    to arguments ([list[str]] is [PyGenericAlias "list" [str]]). *)
Inductive pytype : Type :=
  | PyClass (modname name : string) : pytype
  | PyGenericAlias (origin : string) (args : list pytype) : pytype.

(** The Python objects that reach the registry: annotation metadata,
    keyword-argument values, tool return values and type objects. *)
Inductive pyval : Type :=
  | VNone : pyval
  | VBool (b : bool) : pyval
  | VInt (z : Z) : pyval
  | VStr (s : string) : pyval
  | VTuple (vs : list pyval) : pyval
  | VType (t : pytype) : pyval.

(** An exception object: the name of its class and its message. *)
Record exn : Type := mkExn { exc_type : string; exc_msg : string }.

Definition TypeError (msg : string) : exn := mkExn "TypeError" msg.
Definition AttributeError (msg : string) : exn := mkExn "AttributeError" msg.
Definition KeyError (msg : string) : exn := mkExn "KeyError" msg.

(** ** Dicts in insertion order *)

Section Dict.
Context {V : Type}.

Definition dict : Type := list (string * V).

(** [k in d] *)
Fixpoint dict_contains (k : string) (d : dict) : bool :=
  match d with
  | [] => false
  | (k', _) :: d' => if String.eqb k k' then true else dict_contains k d'
  end.

(** [d.get(k)] *)
Fixpoint dict_get (k : string) (d : dict) : option V :=
  match d with
  | [] => None
  | (k', v) :: d' => if String.eqb k k' then Some v else dict_get k d'
  end.

(** [d[k] = v]: an existing key keeps its position, a new key goes last. *)
Fixpoint dict_set (k : string) (v : V) (d : dict) : dict :=
  match d with
  | [] => [(k, v)]
  | (k', v') :: d' =>
      if String.eqb k k' then (k, v) :: d' else (k', v') :: dict_set k v d'
  end.

Definition dict_keys (d : dict) : list string := map fst d.
End Dict.

Arguments dict V : clear implicits.

(** ** The state-and-exception monad *)

Inductive result (A : Type) : Type :=
  | Ok (a : A) : result A
  | Raise (e : exn) : result A.
Arguments Ok {A} a.
Arguments Raise {A} e.

Module PyMonad.
Definition M (St A : Type) : Type := St -> result A * St.

Definition ret {St A} (a : A) : M St A := fun s => (Ok a, s).
Definition raise {St A} (e : exn) : M St A := fun s => (Raise e, s).
Definition bind {St A B} (m : M St A) (k : A -> M St B) : M St B :=
  fun s => match m s with
           | (Ok a, s') => k a s'
           | (Raise e, s') => (Raise e, s')
           end.
Definition get {St} : M St St := fun s => (Ok s, s).
Definition put {St} (s : St) : M St unit := fun _ => (Ok tt, s).

(** A computation that has already returned or raised. *)
Definition result_of {A} (r : exn + A) : result A :=
  match r with
  | inl e => Raise e
  | inr a => Ok a
  end.

Definition lift {St A} (r : exn + A) : M St A := fun s => (result_of r, s).
End PyMonad.
Import PyMonad.

Declare Scope py_scope.
Delimit Scope py_scope with py.
Notation "x <- m ;; k" := (bind m (fun x => k))
  (at level 100, m at next level, right associativity) : py_scope.
Notation "m ;;; k" := (bind m (fun _ => k))
  (at level 100, right associativity) : py_scope.
Local Open Scope py_scope.

(** ** Strings: characters, [str.strip], [repr], [str.encode], [str] *)

Module PyStr.
Local Open Scope N_scope.

Definition squote : ascii := ascii_of_N 39.
Definition dquote : ascii := ascii_of_N 34.
Definition backslash : ascii := ascii_of_N 92.
Definition newline : string := String (ascii_of_N 10) EmptyString.

Definition byte (c : ascii) : N := N_of_ascii c.

(** A continuation byte of UTF-8. *)
Definition is_cont (c : ascii) : bool := (128 <=? byte c) && (byte c <? 192).
Definition low6 (c : ascii) : N := byte c mod 64.

(** The first character of a string: its code point and the number of
    bytes it takes. A lead byte announces one, two or three continuation
    bytes; a surrogate takes three bytes like its neighbours. A byte
    that starts no character, which no Python string gives, counts as
    one character, U+FFFD. *)
Definition decode1 (s : string) : N * nat :=
  match s with
  | EmptyString => (0, 0%nat)
  | String c0 s0 =>
      let b0 := byte c0 in
      if b0 <? 128 then (b0, 1%nat)
      else
        match s0 with
        | String c1 s1 =>
            if negb (is_cont c1) then (65533, 1%nat)
            else if (192 <=? b0) && (b0 <? 224)
            then ((b0 mod 32) * 64 + low6 c1, 2%nat)
            else
              match s1 with
              | String c2 s2 =>
                  if negb (is_cont c2) then (65533, 1%nat)
                  else if (224 <=? b0) && (b0 <? 240)
                  then (((b0 mod 16) * 64 + low6 c1) * 64 + low6 c2, 3%nat)
                  else
                    match s2 with
                    | String c3 _ =>
                        if is_cont c3 && (240 <=? b0) && (b0 <? 248)
                        then ((((b0 mod 8) * 64 + low6 c1) * 64 + low6 c2) * 64
                              + low6 c3, 4%nat)
                        else (65533, 1%nat)
                    | EmptyString => (65533, 1%nat)
                    end
              | EmptyString => (65533, 1%nat)
              end
        | EmptyString => (65533, 1%nat)
        end
  end.

Fixpoint skip (n : nat) (s : string) : string :=
  match n, s with
  | Datatypes.S n', String _ s' => skip n' s'
  | _, _ => s
  end.

Fixpoint chars_go (fuel : nat) (s : string) : list (N * string) :=
  match fuel, s with
  | Datatypes.S fuel', String _ _ =>
      let '(cp, n) := decode1 s in
      (cp, substring 0 n s) :: chars_go fuel' (skip n s)
  | _, _ => []
  end.

(** The characters of a string, each with its code point and its
    bytes. *)
Definition chars (s : string) : list (N * string) :=
  chars_go (String.length s) s.

Definition unchars (cs : list (N * string)) : string :=
  fold_right (fun c acc => snd c +:+ acc) EmptyString cs.

(** [c.isspace()]: the characters [str.strip()] removes. *)
Definition is_space (cp : N) : bool :=
  ((9 <=? cp) && (cp <=? 13)) || ((28 <=? cp) && (cp <=? 32))
  || (cp =? 133) || (cp =? 160) || (cp =? 5760)
  || ((8192 <=? cp) && (cp <=? 8202))
  || (cp =? 8232) || (cp =? 8233) || (cp =? 8239) || (cp =? 8287)
  || (cp =? 12288).

Fixpoint lstrip_chars (cs : list (N * string)) : list (N * string) :=
  match cs with
  | c :: cs' => if is_space (fst c) then lstrip_chars cs' else cs
  | [] => []
  end.

(** [s.strip()] *)
Definition strip (s : string) : string :=
  unchars (rev (lstrip_chars (rev (lstrip_chars (chars s))))).

Definition hex_digit (n : N) : ascii :=
  ascii_of_N (if n <? 10 then 48 + n else 87 + n).

(** Two lower-case hexadecimal digits of a byte. *)
Definition hex_byte (n : N) : string :=
  String (hex_digit (n / 16)) (String (hex_digit (n mod 16)) EmptyString).

(** [width] lower-case hexadecimal digits. *)
Fixpoint hex_fixed (width : nat) (n : N) : string :=
  match width with
  | O => EmptyString
  | Datatypes.S width' =>
      hex_fixed width' (n / 16) +:+ String (hex_digit (n mod 16)) EmptyString
  end.

Fixpoint has_char (c : ascii) (s : string) : bool :=
  match s with
  | EmptyString => false
  | String c' s' => if Ascii.eqb c c' then true else has_char c s'
  end.

(** The code points that are not printable, as ranges: the categories
    Cc, Cf, Cs, Co, Cn, Zl, Zp and Zs but for the space, in Unicode 14.0,
    the version of CPython 3.11. *)
Definition non_printable : list (N * N) :=
  [(0, 31); (127, 160); (173, 173); (888, 889); (896, 899); (907, 907);
   (909, 909); (930, 930); (1328, 1328); (1367, 1368); (1419, 1420);
   (1424, 1424); (1480, 1487); (1515, 1518); (1525, 1541); (1564, 1564);
   (1757, 1757); (1806, 1807); (1867, 1868); (1970, 1983); (2043, 2044);
   (2094, 2095); (2111, 2111); (2140, 2141); (2143, 2143); (2155, 2159);
   (2191, 2199); (2274, 2274); (2436, 2436); (2445, 2446); (2449, 2450);
   (2473, 2473); (2481, 2481); (2483, 2485); (2490, 2491); (2501, 2502);
   (2505, 2506); (2511, 2518); (2520, 2523); (2526, 2526); (2532, 2533);
   (2559, 2560); (2564, 2564); (2571, 2574); (2577, 2578); (2601, 2601);
   (2609, 2609); (2612, 2612); (2615, 2615); (2618, 2619); (2621, 2621);
   (2627, 2630); (2633, 2634); (2638, 2640); (2642, 2648); (2653, 2653);
   (2655, 2661); (2679, 2688); (2692, 2692); (2702, 2702); (2706, 2706);
   (2729, 2729); (2737, 2737); (2740, 2740); (2746, 2747); (2758, 2758);
   (2762, 2762); (2766, 2767); (2769, 2783); (2788, 2789); (2802, 2808);
   (2816, 2816); (2820, 2820); (2829, 2830); (2833, 2834); (2857, 2857);
   (2865, 2865); (2868, 2868); (2874, 2875); (2885, 2886); (2889, 2890);
   (2894, 2900); (2904, 2907); (2910, 2910); (2916, 2917); (2936, 2945);
   (2948, 2948); (2955, 2957); (2961, 2961); (2966, 2968); (2971, 2971);
   (2973, 2973); (2976, 2978); (2981, 2983); (2987, 2989); (3002, 3005);
   (3011, 3013); (3017, 3017); (3022, 3023); (3025, 3030); (3032, 3045);
   (3067, 3071); (3085, 3085); (3089, 3089); (3113, 3113); (3130, 3131);
   (3141, 3141); (3145, 3145); (3150, 3156); (3159, 3159); (3163, 3164);
   (3166, 3167); (3172, 3173); (3184, 3190); (3213, 3213); (3217, 3217);
   (3241, 3241); (3252, 3252); (3258, 3259); (3269, 3269); (3273, 3273);
   (3278, 3284); (3287, 3292); (3295, 3295); (3300, 3301); (3312, 3312);
   (3315, 3327); (3341, 3341); (3345, 3345); (3397, 3397); (3401, 3401);
   (3408, 3411); (3428, 3429); (3456, 3456); (3460, 3460); (3479, 3481);
   (3506, 3506); (3516, 3516); (3518, 3519); (3527, 3529); (3531, 3534);
   (3541, 3541); (3543, 3543); (3552, 3557); (3568, 3569); (3573, 3584);
   (3643, 3646); (3676, 3712); (3715, 3715); (3717, 3717); (3723, 3723);
   (3748, 3748); (3750, 3750); (3774, 3775); (3781, 3781); (3783, 3783);
   (3790, 3791); (3802, 3803); (3808, 3839); (3912, 3912); (3949, 3952);
   (3992, 3992); (4029, 4029); (4045, 4045); (4059, 4095); (4294, 4294);
   (4296, 4300); (4302, 4303); (4681, 4681); (4686, 4687); (4695, 4695);
   (4697, 4697); (4702, 4703); (4745, 4745); (4750, 4751); (4785, 4785);
   (4790, 4791); (4799, 4799); (4801, 4801); (4806, 4807); (4823, 4823);
   (4881, 4881); (4886, 4887); (4955, 4956); (4989, 4991); (5018, 5023);
   (5110, 5111); (5118, 5119); (5760, 5760); (5789, 5791); (5881, 5887);
   (5910, 5918); (5943, 5951); (5972, 5983); (5997, 5997); (6001, 6001);
   (6004, 6015); (6110, 6111); (6122, 6127); (6138, 6143); (6158, 6158);
   (6170, 6175); (6265, 6271); (6315, 6319); (6390, 6399); (6431, 6431);
   (6444, 6447); (6460, 6463); (6465, 6467); (6510, 6511); (6517, 6527);
   (6572, 6575); (6602, 6607); (6619, 6621); (6684, 6685); (6751, 6751);
   (6781, 6782); (6794, 6799); (6810, 6815); (6830, 6831); (6863, 6911);
   (6989, 6991); (7039, 7039); (7156, 7163); (7224, 7226); (7242, 7244);
   (7305, 7311); (7355, 7356); (7368, 7375); (7419, 7423); (7958, 7959);
   (7966, 7967); (8006, 8007); (8014, 8015); (8024, 8024); (8026, 8026);
   (8028, 8028); (8030, 8030); (8062, 8063); (8117, 8117); (8133, 8133);
   (8148, 8149); (8156, 8156); (8176, 8177); (8181, 8181); (8191, 8207);
   (8232, 8239); (8287, 8303); (8306, 8307); (8335, 8335); (8349, 8351);
   (8385, 8399); (8433, 8447); (8588, 8591); (9255, 9279); (9291, 9311);
   (11124, 11125); (11158, 11158); (11508, 11512); (11558, 11558);
   (11560, 11564); (11566, 11567); (11624, 11630); (11633, 11646);
   (11671, 11679); (11687, 11687); (11695, 11695); (11703, 11703);
   (11711, 11711); (11719, 11719); (11727, 11727); (11735, 11735);
   (11743, 11743); (11870, 11903); (11930, 11930); (12020, 12031);
   (12246, 12271); (12284, 12288); (12352, 12352); (12439, 12440);
   (12544, 12548); (12592, 12592); (12687, 12687); (12772, 12783);
   (12831, 12831); (42125, 42127); (42183, 42191); (42540, 42559);
   (42744, 42751); (42955, 42959); (42962, 42962); (42964, 42964);
   (42970, 42993); (43053, 43055); (43066, 43071); (43128, 43135);
   (43206, 43213); (43226, 43231); (43348, 43358); (43389, 43391);
   (43470, 43470); (43482, 43485); (43519, 43519); (43575, 43583);
   (43598, 43599); (43610, 43611); (43715, 43738); (43767, 43776);
   (43783, 43784); (43791, 43792); (43799, 43807); (43815, 43815);
   (43823, 43823); (43884, 43887); (44014, 44015); (44026, 44031);
   (55204, 55215); (55239, 55242); (55292, 63743); (64110, 64111);
   (64218, 64255); (64263, 64274); (64280, 64284); (64311, 64311);
   (64317, 64317); (64319, 64319); (64322, 64322); (64325, 64325);
   (64451, 64466); (64912, 64913); (64968, 64974); (64976, 65007);
   (65050, 65055); (65107, 65107); (65127, 65127); (65132, 65135);
   (65141, 65141); (65277, 65280); (65471, 65473); (65480, 65481);
   (65488, 65489); (65496, 65497); (65501, 65503); (65511, 65511);
   (65519, 65531); (65534, 65535); (65548, 65548); (65575, 65575);
   (65595, 65595); (65598, 65598); (65614, 65615); (65630, 65663);
   (65787, 65791); (65795, 65798); (65844, 65846); (65935, 65935);
   (65949, 65951); (65953, 65999); (66046, 66175); (66205, 66207);
   (66257, 66271); (66300, 66303); (66340, 66348); (66379, 66383);
   (66427, 66431); (66462, 66462); (66500, 66503); (66518, 66559);
   (66718, 66719); (66730, 66735); (66772, 66775); (66812, 66815);
   (66856, 66863); (66916, 66926); (66939, 66939); (66955, 66955);
   (66963, 66963); (66966, 66966); (66978, 66978); (66994, 66994);
   (67002, 67002); (67005, 67071); (67383, 67391); (67414, 67423);
   (67432, 67455); (67462, 67462); (67505, 67505); (67515, 67583);
   (67590, 67591); (67593, 67593); (67638, 67638); (67641, 67643);
   (67645, 67646); (67670, 67670); (67743, 67750); (67760, 67807);
   (67827, 67827); (67830, 67834); (67868, 67870); (67898, 67902);
   (67904, 67967); (68024, 68027); (68048, 68049); (68100, 68100);
   (68103, 68107); (68116, 68116); (68120, 68120); (68150, 68151);
   (68155, 68158); (68169, 68175); (68185, 68191); (68256, 68287);
   (68327, 68330); (68343, 68351); (68406, 68408); (68438, 68439);
   (68467, 68471); (68498, 68504); (68509, 68520); (68528, 68607);
   (68681, 68735); (68787, 68799); (68851, 68857); (68904, 68911);
   (68922, 69215); (69247, 69247); (69290, 69290); (69294, 69295);
   (69298, 69375); (69416, 69423); (69466, 69487); (69514, 69551);
   (69580, 69599); (69623, 69631); (69710, 69713); (69750, 69758);
   (69821, 69821); (69827, 69839); (69865, 69871); (69882, 69887);
   (69941, 69941); (69960, 69967); (70007, 70015); (70112, 70112);
   (70133, 70143); (70162, 70162); (70207, 70271); (70279, 70279);
   (70281, 70281); (70286, 70286); (70302, 70302); (70314, 70319);
   (70379, 70383); (70394, 70399); (70404, 70404); (70413, 70414);
   (70417, 70418); (70441, 70441); (70449, 70449); (70452, 70452);
   (70458, 70458); (70469, 70470); (70473, 70474); (70478, 70479);
   (70481, 70486); (70488, 70492); (70500, 70501); (70509, 70511);
   (70517, 70655); (70748, 70748); (70754, 70783); (70856, 70863);
   (70874, 71039); (71094, 71095); (71134, 71167); (71237, 71247);
   (71258, 71263); (71277, 71295); (71354, 71359); (71370, 71423);
   (71451, 71452); (71468, 71471); (71495, 71679); (71740, 71839);
   (71923, 71934); (71943, 71944); (71946, 71947); (71956, 71956);
   (71959, 71959); (71990, 71990); (71993, 71994); (72007, 72015);
   (72026, 72095); (72104, 72105); (72152, 72153); (72165, 72191);
   (72264, 72271); (72355, 72367); (72441, 72703); (72713, 72713);
   (72759, 72759); (72774, 72783); (72813, 72815); (72848, 72849);
   (72872, 72872); (72887, 72959); (72967, 72967); (72970, 72970);
   (73015, 73017); (73019, 73019); (73022, 73022); (73032, 73039);
   (73050, 73055); (73062, 73062); (73065, 73065); (73103, 73103);
   (73106, 73106); (73113, 73119); (73130, 73439); (73465, 73647);
   (73649, 73663); (73714, 73726); (74650, 74751); (74863, 74863);
   (74869, 74879); (75076, 77711); (77811, 77823); (78895, 82943);
   (83527, 92159); (92729, 92735); (92767, 92767); (92778, 92781);
   (92863, 92863); (92874, 92879); (92910, 92911); (92918, 92927);
   (92998, 93007); (93018, 93018); (93026, 93026); (93048, 93052);
   (93072, 93759); (93851, 93951); (94027, 94030); (94088, 94094);
   (94112, 94175); (94181, 94191); (94194, 94207); (100344, 100351);
   (101590, 101631); (101641, 110575); (110580, 110580); (110588, 110588);
   (110591, 110591); (110883, 110927); (110931, 110947); (110952, 110959);
   (111356, 113663); (113771, 113775); (113789, 113791); (113801, 113807);
   (113818, 113819); (113824, 118527); (118574, 118575); (118599, 118607);
   (118724, 118783); (119030, 119039); (119079, 119080); (119155, 119162);
   (119275, 119295); (119366, 119519); (119540, 119551); (119639, 119647);
   (119673, 119807); (119893, 119893); (119965, 119965); (119968, 119969);
   (119971, 119972); (119975, 119976); (119981, 119981); (119994, 119994);
   (119996, 119996); (120004, 120004); (120070, 120070); (120075, 120076);
   (120085, 120085); (120093, 120093); (120122, 120122); (120127, 120127);
   (120133, 120133); (120135, 120137); (120145, 120145); (120486, 120487);
   (120780, 120781); (121484, 121498); (121504, 121504); (121520, 122623);
   (122655, 122879); (122887, 122887); (122905, 122906); (122914, 122914);
   (122917, 122917); (122923, 123135); (123181, 123183); (123198, 123199);
   (123210, 123213); (123216, 123535); (123567, 123583); (123642, 123646);
   (123648, 124895); (124903, 124903); (124908, 124908); (124911, 124911);
   (124927, 124927); (125125, 125126); (125143, 125183); (125260, 125263);
   (125274, 125277); (125280, 126064); (126133, 126208); (126270, 126463);
   (126468, 126468); (126496, 126496); (126499, 126499); (126501, 126502);
   (126504, 126504); (126515, 126515); (126520, 126520); (126522, 126522);
   (126524, 126529); (126531, 126534); (126536, 126536); (126538, 126538);
   (126540, 126540); (126544, 126544); (126547, 126547); (126549, 126550);
   (126552, 126552); (126554, 126554); (126556, 126556); (126558, 126558);
   (126560, 126560); (126563, 126563); (126565, 126566); (126571, 126571);
   (126579, 126579); (126584, 126584); (126589, 126589); (126591, 126591);
   (126602, 126602); (126620, 126624); (126628, 126628); (126634, 126634);
   (126652, 126703); (126706, 126975); (127020, 127023); (127124, 127135);
   (127151, 127152); (127168, 127168); (127184, 127184); (127222, 127231);
   (127406, 127461); (127491, 127503); (127548, 127551); (127561, 127567);
   (127570, 127583); (127590, 127743); (128728, 128732); (128749, 128751);
   (128765, 128767); (128884, 128895); (128985, 128991); (129004, 129007);
   (129009, 129023); (129036, 129039); (129096, 129103); (129114, 129119);
   (129160, 129167); (129198, 129199); (129202, 129279); (129620, 129631);
   (129646, 129647); (129653, 129655); (129661, 129663); (129671, 129679);
   (129709, 129711); (129723, 129727); (129734, 129743); (129754, 129759);
   (129768, 129775); (129783, 129791); (129939, 129939); (129995, 130031);
   (130042, 131071); (173792, 173823); (177977, 177983); (178206, 178207);
   (183970, 183983); (191457, 194559); (195102, 196607); (201547, 917759);
   (918000, 1114111)]%N.

(** [c.isprintable()] *)
Definition is_printable (cp : N) : bool :=
  negb (existsb (fun r => (fst r <=? cp) && (cp <=? snd r)) non_printable).

(** One character of [repr(s)]. *)
Definition escape_char (quote : ascii) (c : N * string) : string :=
  let '(cp, bs) := c in
  if (cp =? byte quote) || (cp =? byte backslash) then String backslash bs
  else if cp =? 9 then String backslash "t"
  else if cp =? 10 then String backslash "n"
  else if cp =? 13 then String backslash "r"
  else if (cp <? 32) || (cp =? 127)
  then String backslash (String "x" (hex_fixed 2 cp))
  else if cp <? 128 then bs
  else if is_printable cp then bs
  else if cp <? 256 then String backslash (String "x" (hex_fixed 2 cp))
  else if cp <? 65536 then String backslash (String "u" (hex_fixed 4 cp))
  else String backslash (String "U" (hex_fixed 8 cp)).

Definition escape (quote : ascii) (s : string) : string :=
  fold_right (fun c acc => escape_char quote c +:+ acc) EmptyString (chars s).

(** [repr(s)] for a string: single quotes unless the string holds a
    single quote and no double quote; every character that is not
    printable is escaped. *)
Definition repr_str (s : string) : string :=
  let quote := if has_char squote s && negb (has_char dquote s)
               then dquote else squote in
  String quote (escape quote s) +:+ String quote EmptyString.

Definition is_surrogate (cp : N) : bool := (55296 <=? cp) && (cp <=? 57343).

(** How many surrogates the characters start with. *)
Fixpoint surrogate_run (cs : list (N * string)) : N :=
  match cs with
  | c :: cs' => if is_surrogate (fst c) then 1 + surrogate_run cs' else 0
  | [] => 0
  end.

(** The first run of surrogates among the characters from position [i]
    on: where it starts, where it stops, and its first code point. *)
Fixpoint surrogates (i : N) (cs : list (N * string)) : option (N * N * N) :=
  match cs with
  | [] => None
  | c :: cs' =>
      if is_surrogate (fst c)
      then Some (i, i + 1 + surrogate_run cs', fst c)
      else surrogates (i + 1) cs'
  end.

Definition bytes (s : string) : list Z :=
  map (fun c => Z.of_N (byte c)) (list_ascii_of_string s).

(** [s.encode()]: the bytes of the string, or [UnicodeEncodeError] at
    its first run of surrogates. *)
Definition encode (s : string) : exn + list Z :=
  match surrogates 0 (chars s) with
  | None => inr (bytes s)
  | Some (start, stop, cp) =>
      inl (mkExn "UnicodeEncodeError"
             (if stop =? start + 1
              then "'utf-8' codec can't encode character '"
                   +:+ String backslash (String "u" (hex_fixed 4 cp))
                   +:+ "' in position " +:+ pretty start
                   +:+ ": surrogates not allowed"
              else "'utf-8' codec can't encode characters in position "
                   +:+ pretty start +:+ "-" +:+ pretty (stop - 1)
                   +:+ ": surrogates not allowed"))
  end.

Fixpoint join (sep : string) (ss : list string) : string :=
  match ss with
  | [] => EmptyString
  | [s] => s
  | s :: ss' => s +:+ sep +:+ join sep ss'
  end.
End PyStr.

(** [repr] of a type object as an argument of a generic alias. *)
Fixpoint type_repr (t : pytype) : string :=
  match t with
  | PyClass m n => if String.eqb m "builtins" then n else m +:+ "." +:+ n
  | PyGenericAlias o args =>
      o +:+ "[" +:+ PyStr.join ", " (map type_repr args) +:+ "]"
  end.

(** How deep the arguments of a generic alias nest. *)
Fixpoint type_nesting (t : pytype) : nat :=
  match t with
  | PyClass _ _ => 0%nat
  | PyGenericAlias _ args =>
      Datatypes.S (fold_right (fun a n => Nat.max (type_nesting a) n) 0%nat args)
  end.

(** [sys.get_int_max_str_digits()], as the interpreter starts. *)
Definition int_max_str_digits : Z := 4300.

(** [repr(z)] for an integer: its decimal digits, unless there are more
    of them than the limit. *)
Definition int_repr (z : Z) : exn + string :=
  if 10 ^ int_max_str_digits <=? Z.abs z
  then inl (mkExn "ValueError"
              ("Exceeds the limit (4300 digits) for integer string conversion; "
               +:+ "use sys.set_int_max_str_digits() to increase the limit"))
  else inr (pretty z).

Definition RecursionError : exn :=
  mkExn "RecursionError"
        "maximum recursion depth exceeded while getting the repr of an object".

(** [repr(v)], where [depth] is how many levels of nesting the
    interpreter's stack still allows. The items of a tuple are rendered
    from left to right and the first failure is raised. *)
Fixpoint py_repr (depth : nat) (v : pyval) : exn + string :=
  match v with
  | VNone => inr "None"
  | VBool true => inr "True"
  | VBool false => inr "False"
  | VInt z => int_repr z
  | VStr s => inr (PyStr.repr_str s)
  | VTuple vs =>
      match depth with
      | O => inl RecursionError
      | Datatypes.S depth' =>
          match
            (fix items (vs : list pyval) : exn + list string :=
               match vs with
               | [] => inr []
               | v :: vs' =>
                   match py_repr depth' v with
                   | inl e => inl e
                   | inr s =>
                       match items vs' with
                       | inl e => inl e
                       | inr ss => inr (s :: ss)
                       end
                   end
               end) vs
          with
          | inl e => inl e
          | inr ss =>
              inr ("(" +:+ PyStr.join ", " ss
                       +:+ (if (length vs =? 1)%nat then "," else "") +:+ ")")
          end
      end
  | VType t =>
      if (type_nesting t <=? depth)%nat then
        inr match t with
            | PyClass _ _ => "<class '" +:+ type_repr t +:+ "'>"
            | PyGenericAlias _ _ => type_repr t
            end
      else inl RecursionError
  end.

(** [str(v)]: a string is returned as it is, any other value gives its
    [repr]. *)
Definition py_str (depth : nat) (v : pyval) : exn + string :=
  match v with
  | VStr s => inr s
  | _ => py_repr depth v
  end.

(** ** Annotations and function objects *)

(** [param.annotation]: absent, [Annotated[t, m, *ms]], or any other
    object (a bare type such as [str] is [AnnObj (VType ...)]). *)
Inductive annotation : Type :=
  | AnnEmpty : annotation
  | AnnObj (v : pyval) : annotation
  | AnnAnnotated (t : pytype) (m : pyval) (ms : list pyval) : annotation.

(** [typing.Annotated] itself, a class named [Annotated]. *)
Definition Annotated : pyval := VType (PyClass "typing" "Annotated").

(** [typing.get_origin] *)
Definition get_origin (a : annotation) : pyval :=
  match a with
  | AnnAnnotated _ _ _ => Annotated
  | AnnObj (VType (PyGenericAlias o _)) => VType (PyClass "builtins" o)
  | _ => VNone
  end.

(** [typing.get_args] *)
Definition get_args (a : annotation) : list pyval :=
  match a with
  | AnnAnnotated t m ms => VType t :: m :: ms
  | AnnObj (VType (PyGenericAlias _ args)) => map VType args
  | _ => []
  end.

Fixpoint pytype_eqb (a b : pytype) : bool :=
  match a, b with
  | PyClass m n, PyClass m' n' => String.eqb m m' && String.eqb n n'
  | PyGenericAlias o xs, PyGenericAlias o' ys =>
      String.eqb o o' &&
      (fix go (xs ys : list pytype) : bool :=
         match xs, ys with
         | [], [] => true
         | x :: xs', y :: ys' => pytype_eqb x y && go xs' ys'
         | _, _ => false
         end) xs ys
  | _, _ => false
  end.

(** [v is Annotated] for the result of [get_origin]. *)
Definition is_Annotated (v : pyval) : bool :=
  match v with
  | VType t => pytype_eqb t (PyClass "typing" "Annotated")
  | _ => false
  end.

(** [isinstance(v, GenericAlias)]: the alias [v] is, if it is one. *)
Definition as_GenericAlias (v : pyval) : option pytype :=
  match v with
  | VType (PyGenericAlias o args) => Some (PyGenericAlias o args)
  | _ => None
  end.

(** [isinstance(v, tuple)] *)
Definition isinstance_tuple (v : pyval) : bool :=
  match v with
  | VTuple _ => true
  | _ => false
  end.

(** [len(v)] of a tuple. *)
Definition len (v : pyval) : nat :=
  match v with
  | VTuple vs => length vs
  | _ => 0
  end.

(** What calling a function gives: a value, or an exception together with
    the stack frames rendered by [traceback]. *)
Inductive outcome : Type :=
  | Returned (v : pyval) : outcome
  | Raised (frames : string) (e : exn) : outcome.

(** A function object: [__name__], the result of [inspect.getdoc], the
    parameters of [inspect.signature] in order, and its behaviour when
    called with keyword arguments. *)
Record pyfunc : Type := mkFunc {
  fn_name : string;
  fn_doc : option string;
  fn_params : list (string * annotation);
  fn_call : dict pyval -> outcome
}.

(** ** The registry *)

(** One entry of [tool_params]. *)
Record tool_param : Type := mkParam {
  tp_name : string;
  tp_description : string;
  tp_type : string;
  tp_required : bool
}.

(** [tool_def] *)
Record tool_def : Type := mkTool {
  td_name : string;
  td_description : string;
  td_params : list tool_param
}.

(** The module globals. *)
Record registry : Type := mkRegistry {
  _TOOL_HOOKS : dict pyfunc;
  _TOOL_DESCRIPTIONS : dict tool_def
}.

Definition empty_registry : registry := mkRegistry [] [].

Definition bt (s : string) : string := "`" +:+ s +:+ "`".

Section Register.
Context {St : Type}.

(** [inspect.getdoc(func).strip()] *)
Definition getdoc_strip (func : pyfunc) : M St string :=
  match fn_doc func with
  | Some doc => ret (PyStr.strip doc)
  | None => raise (AttributeError "'NoneType' object has no attribute 'strip'")
  end.

(** [xs[i]] *)
Definition getitem (xs : list pyval) (i : nat) : M St pyval :=
  match nth_error xs i with
  | Some v => ret v
  | None => raise (mkExn "IndexError" "tuple index out of range")
  end.

(** [description, required = metadata] *)
Definition unpack2 (metadata : pyval) : M St (pyval * pyval) :=
  match metadata with
  | VTuple [a; b] => ret (a, b)
  | _ => raise (mkExn "ValueError" "cannot unpack")
  end.

(** [typ.__name__] *)
Definition dunder_name (typ : pyval) : M St string :=
  match typ with
  | VType (PyClass _ n) => ret n
  | _ => raise (AttributeError "__name__")
  end.

(** The body of the loop over [python_params.items()]: the entry that
    is appended to [tool_params], or the exception raised. *)
Definition param_entry (name : string) (annotation : annotation)
  : M St tool_param :=
  match annotation with
  | AnnEmpty =>
      raise (TypeError ("Parameter " +:+ bt name +:+ " missing type annotation"))
  | _ =>
    if negb (is_Annotated (get_origin annotation)) then
      raise (TypeError ("Annotation type for " +:+ bt name
                        +:+ " must be typing.Annotated"))
    else
      let typ := get_origin annotation in
      metadata <- getitem (get_args annotation) 1 ;;
      if negb (isinstance_tuple metadata) || negb (len metadata =? 2)%nat then
        raise (TypeError ("Metadata for " +:+ bt name
          +:+ " must be a tuple with two elements (description, required)"))
      else
        dr <- unpack2 metadata ;;
        let '(description, required) := dr in
        typ <- (match as_GenericAlias typ with
                | Some alias => ret (type_repr alias)
                | None => dunder_name typ
                end) ;;
        match description with
        | VStr description =>
            match required with
            | VBool required => ret (mkParam name description typ required)
            | _ => raise (TypeError ("Required for " +:+ bt name
                                     +:+ " must be a bool"))
            end
        | _ => raise (TypeError ("Description for " +:+ bt name
                                 +:+ " must be a string"))
        end
  end.

Fixpoint build_params (python_params : list (string * annotation))
    (tool_params : list tool_param) : M St (list tool_param) :=
  match python_params with
  | [] => ret tool_params
  | (name, annotation) :: rest =>
      p <- param_entry name annotation ;;
      build_params rest (tool_params ++ [p])
  end.
End Register.

(** The [print] of the definition comes before the two writes and is
    taken to succeed. *)
Definition register_tool (func : pyfunc) : M registry pyfunc :=
  let tool_name := fn_name func in
  tool_description <- getdoc_strip func ;;
  let python_params := fn_params func in
  tool_params <- build_params python_params [] ;;
  let tool_def := mkTool tool_name tool_description tool_params in
  g <- get ;;
  put (mkRegistry (dict_set tool_name func (_TOOL_HOOKS g))
                  (_TOOL_DESCRIPTIONS g)) ;;;
  g <- get ;;
  put (mkRegistry (_TOOL_HOOKS g)
                  (dict_set tool_name tool_def (_TOOL_DESCRIPTIONS g))) ;;;
  ret func.

(** [d[k]] *)
Definition dict_getitem {St V} (k : string) (d : dict V) : M St V :=
  match dict_get k d with
  | Some v => ret v
  | None => raise (KeyError (PyStr.repr_str k))
  end.

(** [traceback.format_exc()] for the exception being handled. *)
Definition format_exc (frames : string) (e : exn) : string :=
  "Traceback (most recent call last):" +:+ PyStr.newline +:+ frames
    +:+ exc_type e
    +:+ (if String.eqb (exc_msg e) "" then "" else ": " +:+ exc_msg e)
    +:+ PyStr.newline.

(** [depth] is how many levels of nesting the interpreter's stack allows
    to [str(ret)], which is outside the [try]. *)
Definition dispatch_tool (depth : nat) (tool_name : string)
    (tool_params : dict pyval) : M registry string :=
  g <- get ;;
  if negb (dict_contains tool_name (_TOOL_HOOKS g)) then
    ret ("Tool " +:+ bt tool_name +:+ " not found. Please use a provided tool.")
  else
    g <- get ;;
    tool_call <- dict_getitem tool_name (_TOOL_HOOKS g) ;;
    r <- match fn_call tool_call tool_params with
         | Returned v => ret v
         | Raised frames e => ret (VStr (format_exc frames e))
         end ;;
    lift (py_str depth r).

(** [copy.deepcopy] on a value: values of the embedding are immutable, so
    the copy is the value. Object identity is treated in [Store]. *)
Definition deepcopy {A : Type} (x : A) : A := x.

Definition get_tools : M registry (dict tool_def) :=
  g <- get ;;
  ret (deepcopy (_TOOL_DESCRIPTIONS g)).

(** ** MD5 ([hashlib.md5], RFC 1321) *)

Module MD5.
Definition mask32 (x : Z) : Z := Z.land x 4294967295.
Definition not32 (x : Z) : Z := Z.lxor x 4294967295.
Definition rotl32 (x c : Z) : Z :=
  mask32 (Z.lor (Z.shiftl x c) (Z.shiftr x (32 - c))).

Definition shifts : list Z :=
  [7; 12; 17; 22; 7; 12; 17; 22; 7; 12; 17; 22; 7; 12; 17; 22;
   5; 9; 14; 20; 5; 9; 14; 20; 5; 9; 14; 20; 5; 9; 14; 20;
   4; 11; 16; 23; 4; 11; 16; 23; 4; 11; 16; 23; 4; 11; 16; 23;
   6; 10; 15; 21; 6; 10; 15; 21; 6; 10; 15; 21; 6; 10; 15; 21].

(** [floor (2^32 * abs (sin (i + 1)))] *)
Definition K : list Z :=
  [0xd76aa478; 0xe8c7b756; 0x242070db; 0xc1bdceee;
   0xf57c0faf; 0x4787c62a; 0xa8304613; 0xfd469501;
   0x698098d8; 0x8b44f7af; 0xffff5bb1; 0x895cd7be;
   0x6b901122; 0xfd987193; 0xa679438e; 0x49b40821;
   0xf61e2562; 0xc040b340; 0x265e5a51; 0xe9b6c7aa;
   0xd62f105d; 0x02441453; 0xd8a1e681; 0xe7d3fbc8;
   0x21e1cde6; 0xc33707d6; 0xf4d50d87; 0x455a14ed;
   0xa9e3e905; 0xfcefa3f8; 0x676f02d9; 0x8d2a4c8a;
   0xfffa3942; 0x8771f681; 0x6d9d6122; 0xfde5380c;
   0xa4beea44; 0x4bdecfa9; 0xf6bb4b60; 0xbebfbc70;
   0x289b7ec6; 0xeaa127fa; 0xd4ef3085; 0x04881d05;
   0xd9d4d039; 0xe6db99e5; 0x1fa27cf8; 0xc4ac5665;
   0xf4292244; 0x432aff97; 0xab9423a7; 0xfc93a039;
   0x655b59c3; 0x8f0ccc92; 0xffeff47d; 0x85845dd1;
   0x6fa87e4f; 0xfe2ce6e0; 0xa3014314; 0x4e0811a1;
   0xf7537e82; 0xbd3af235; 0x2ad7d2bb; 0xeb86d391].

(** A little-endian integer of [n] bytes. *)
Fixpoint le_bytes (n : nat) (x : Z) : list Z :=
  match n with
  | O => []
  | Datatypes.S n' => Z.land x 255 :: le_bytes n' (Z.shiftr x 8)
  end.

Fixpoint of_le_bytes (bs : list Z) : Z :=
  match bs with
  | [] => 0
  | b :: bs' => Z.lor b (Z.shiftl (of_le_bytes bs') 8)
  end.

(** The message followed by 0x80, zeros up to 56 modulo 64, and its
    length in bits on 64 bits. *)
Definition pad (msg : list Z) : list Z :=
  let n := Z.of_nat (length msg) in
  let zeros := Z.to_nat ((55 - n) mod 64) in
  msg ++ [128] ++ repeat 0 zeros ++ le_bytes 8 (Z.land (8 * n) 18446744073709551615).

(** Sixteen 32-bit words of a 64-byte block. *)
Fixpoint words (n : nat) (block : list Z) : list Z :=
  match n with
  | O => []
  | Datatypes.S n' => of_le_bytes (firstn 4 block) :: words n' (skipn 4 block)
  end.

Definition step (M : list Z) (st : Z * Z * Z * Z) (i : nat) : Z * Z * Z * Z :=
  let '(a, b, c, d) := st in
  let iz := Z.of_nat i in
  let '(f, g) :=
    if iz <? 16 then (Z.lor (Z.land b c) (Z.land (not32 b) d), iz)
    else if iz <? 32 then
      (Z.lor (Z.land d b) (Z.land (not32 d) c), (5 * iz + 1) mod 16)
    else if iz <? 48 then (Z.lxor (Z.lxor b c) d, (3 * iz + 5) mod 16)
    else (Z.lxor c (Z.lor b (not32 d)), (7 * iz) mod 16) in
  let f := mask32 (f + a + nth i K 0 + nth (Z.to_nat g) M 0) in
  (d, mask32 (b + rotl32 f (nth i shifts 0)), b, c).

Definition compress (st : Z * Z * Z * Z) (block : list Z) : Z * Z * Z * Z :=
  let '(a0, b0, c0, d0) := st in
  let '(a, b, c, d) := fold_left (step (words 16 block)) (seq 0 64) st in
  (mask32 (a0 + a), mask32 (b0 + b), mask32 (c0 + c), mask32 (d0 + d)).

Fixpoint blocks (n : nat) (st : Z * Z * Z * Z) (bs : list Z) : Z * Z * Z * Z :=
  match n with
  | O => st
  | Datatypes.S n' => blocks n' (compress st (firstn 64 bs)) (skipn 64 bs)
  end.

(** The sixteen bytes of the digest. *)
Definition digest (msg : list Z) : list Z :=
  let p := pad msg in
  let '(a, b, c, d) :=
    blocks (length p / 64) (0x67452301, 0xefcdab89, 0x98badcfe, 0x10325476) p in
  le_bytes 4 a ++ le_bytes 4 b ++ le_bytes 4 c ++ le_bytes 4 d.

(** [hashlib.md5(msg).hexdigest()] *)
Definition hexdigest (msg : list Z) : string :=
  fold_right (fun b acc => PyStr.hex_byte (Z.to_N b) +:+ acc) "" (digest msg).
End MD5.

(** ** The tools of the module *)

(** Binding the keyword arguments of a call to a function with the
    single parameter [pname]. *)
Definition bind_kwarg (fname pname : string) (kwargs : dict pyval)
  : exn + pyval :=
  match List.filter (fun kv => negb (String.eqb (fst kv) pname)) kwargs with
  | (k, _) :: _ =>
      inl (TypeError (fname +:+ "() got an unexpected keyword argument '"
                      +:+ k +:+ "'"))
  | [] =>
      match dict_get pname kwargs with
      | Some v => inr v
      | None =>
          inl (TypeError (fname +:+ "() missing 1 required positional argument: '"
                          +:+ pname +:+ "'"))
      end
  end.

(** [Annotated[str, (description, True)]] *)
Definition str_param (description : string) : annotation :=
  AnnAnnotated (PyClass "builtins" "str")
               (VTuple [VStr description; VBool true]) [].

Section Tools.
(** The stack frames [traceback] renders for an exception raised at a
    line of the source; they depend on where the module is installed. *)
Variable frames : nat -> string.

(** The adapters that reach the network or the vector store are taken
    as arbitrary callables. *)
Variables get_weather_call search_knowledge_base_call query_ip_call
  : dict pyval -> outcome.

Definition get_weather : pyfunc :=
  mkFunc "get_weather" (Some "Get the current weather for `city_name`")
    [("city_name", str_param "The name of the city to be queried")]
    get_weather_call.

Definition generate_md5_call (kwargs : dict pyval) : outcome :=
  match bind_kwarg "generate_md5" "input_string" kwargs with
  | inl e => Raised (frames 72) e
  | inr (VStr input_string) =>
      match PyStr.encode input_string with
      | inl e => Raised (frames 116) e
      | inr msg => Returned (VStr (MD5.hexdigest msg))
      end
  | inr _ => Raised (frames 114) (TypeError "Input string must be a string")
  end.

Definition generate_md5 : pyfunc :=
  mkFunc "generate_md5" (Some "Generate MD5 hash of the provided string.")
    [("input_string", str_param "The input string to hash")]
    generate_md5_call.

Definition search_knowledge_base : pyfunc :=
  mkFunc "search_knowledge_base"
    (Some "Search the knowledge base for documents similar to the provided query text.")
    [("query_text",
      str_param "The text to query in the net security knowledge base")]
    search_knowledge_base_call.

Definition query_ip : pyfunc :=
  mkFunc "query_ip" (Some "Query information about a given IP address.")
    [("ip_address", str_param "The IP address to query")]
    query_ip_call.

(** The decorators run in source order when the module is imported. *)
Definition load_module : M registry unit :=
  register_tool get_weather ;;;
  register_tool generate_md5 ;;;
  register_tool search_knowledge_base ;;;
  register_tool query_ip ;;;
  ret tt.

Definition module_registry : registry := snd (load_module empty_registry).
End Tools.

(** ** Operations as data *)

Inductive op : Type :=
  | OpRegister (func : pyfunc) : op
  | OpDispatch (tool_name : string) (tool_params : dict pyval) : op
  | OpGetTools : op.

(** The registry after one operation, whether it returned or raised. *)
Definition exec (depth : nat) (o : op) (g : registry) : registry :=
  match o with
  | OpRegister func => snd (register_tool func g)
  | OpDispatch n ps => snd (dispatch_tool depth n ps g)
  | OpGetTools => snd (get_tools g)
  end.

Definition exec_all (depth : nat) (os : list op) (g : registry) : registry :=
  fold_left (fun g o => exec depth o g) os g.

(** The registry after registering the functions of [fs] in order. *)
Definition registered (fs : list pyfunc) : registry :=
  fold_left (fun g f => snd (register_tool f g)) fs empty_registry.

(** Both tables have the same keys, in the same order. *)
Definition same_keys (g : registry) : Prop :=
  dict_keys (_TOOL_HOOKS g) = dict_keys (_TOOL_DESCRIPTIONS g).

(** ** Declarations *)

(** A parameter carrying a [(description: str, required: bool)] pair. *)
Definition well_formed_param (p : string * annotation) : bool :=
  match snd p with
  | AnnAnnotated _ (VTuple [VStr _; VBool _]) _ => true
  | _ => false
  end.

(** The name of the declared type of a parameter: the name of a class,
    the rendering of a generic alias. *)
Definition declared_type_name (a : annotation) : option string :=
  match a with
  | AnnAnnotated (PyClass _ n) _ _ => Some n
  | AnnAnnotated t _ _ => Some (type_repr t)
  | _ => None
  end.

(** The entry the code builds for a well-formed parameter. *)
Definition param_of (p : string * annotation) : tool_param :=
  match snd p with
  | AnnAnnotated _ (VTuple [VStr d; VBool r]) _ => mkParam (fst p) d "Annotated" r
  | _ => mkParam (fst p) "" "Annotated" false
  end.

(** [s] occurs in [t]. *)
Definition contains (t s : string) : Prop :=
  exists pre post, t = pre +:+ s +:+ post.

(** The string with the given bytes. *)
Definition utf8 (bs : list Z) : string :=
  string_of_list_ascii (map (fun b => ascii_of_N (Z.to_N b)) bs).

(** ** Sample declarations *)

Definition no_call (_ : dict pyval) : outcome := Returned VNone.

(** A function without a docstring. *)
Definition undocumented : pyfunc := mkFunc "undocumented" None [] no_call.

(** A function whose docstring is empty. *)
Definition blank_doc : pyfunc := mkFunc "blank_doc" (Some "") [] no_call.

(** A function whose docstring ends with U+3000, the ideographic
    space. *)
Definition wide_space_doc : pyfunc :=
  mkFunc "wide_space_doc" (Some ("Foo" +:+ utf8 [227; 128; 128])) [] no_call.

(** A function with a bare [str] annotation after a well-formed one. *)
Definition bare_annotation : pyfunc :=
  mkFunc "bare_annotation" (Some "Second parameter lacks metadata.")
    [("a", str_param "first");
     ("b", AnnObj (VType (PyClass "builtins" "str")))]
    no_call.

(** A function that returns an integer with one digit more than [str]
    accepts. *)
Definition huge_int : pyfunc :=
  mkFunc "huge_int" (Some "Ten to the power 4300.") []
    (fun _ => Returned (VInt (10 ^ int_max_str_digits))).

(** A function whose body raises. *)
Definition faulty : pyfunc :=
  mkFunc "faulty" (Some "Always fails.") []
    (fun _ => Raised ("  File tool.py, line 1, in faulty" +:+ PyStr.newline)
                     (mkExn "ZeroDivisionError" "division by zero")).

(** Two functions named [lookup]. *)
Definition lookup_v1 : pyfunc :=
  mkFunc "lookup" (Some "First version.") [("key", str_param "The key")]
    (fun _ => Returned (VStr "v1")).
Definition lookup_v2 : pyfunc :=
  mkFunc "lookup" (Some "Second version.")
    [("key", str_param "The key");
     ("limit", AnnAnnotated (PyClass "builtins" "int")
                 (VTuple [VStr "How many"; VBool false]) [])]
    (fun _ => Returned (VStr "v2")).

(** ** Object identity: the heap behind [_TOOL_DESCRIPTIONS] *)

Module Store.
Abbreviation loc := nat.

(** A stored value: an immutable atom or a reference to an object. *)
Inductive val : Type :=
  | SStr (s : string) : val
  | SBool (b : bool) : val
  | SRef (l : loc) : val.

(** A mutable object. *)
Inductive obj : Type :=
  | OList (vs : list val) : obj
  | ODict (kvs : dict val) : obj.

(** Objects by address; a new object takes the next address. *)
Abbreviation heap := (list obj).

(** The value a structure has when followed through the heap. *)
Inductive tree : Type :=
  | TStr (s : string) : tree
  | TBool (b : bool) : tree
  | TList (ts : list tree) : tree
  | TDict (kts : list (string * tree)) : tree.

Definition param_tree (p : tool_param) : tree :=
  TDict [("name", TStr (tp_name p));
         ("description", TStr (tp_description p));
         ("type", TStr (tp_type p));
         ("required", TBool (tp_required p))].

Definition tool_def_tree (d : tool_def) : tree :=
  TDict [("name", TStr (td_name d));
         ("description", TStr (td_description d));
         ("params", TList (map param_tree (td_params d)))].

Definition descriptions_tree (ds : dict tool_def) : tree :=
  TDict (map (fun kd => (fst kd, tool_def_tree (snd kd))) ds).

(** Building the objects of a literal: children first, then the
    container. *)
Fixpoint alloc (t : tree) (h : heap) : val * heap :=
  match t with
  | TStr s => (SStr s, h)
  | TBool b => (SBool b, h)
  | TList ts =>
      let '(vs, h') :=
        (fix go (ts : list tree) (h : heap) : list val * heap :=
           match ts with
           | [] => ([], h)
           | t :: ts' =>
               let '(v, h1) := alloc t h in
               let '(vs, h2) := go ts' h1 in (v :: vs, h2)
           end) ts h in
      (SRef (length h'), h' ++ [OList vs])
  | TDict kts =>
      let '(kvs, h') :=
        (fix go (kts : list (string * tree)) (h : heap) : dict val * heap :=
           match kts with
           | [] => ([], h)
           | (k, t) :: kts' =>
               let '(v, h1) := alloc t h in
               let '(kvs, h2) := go kts' h1 in ((k, v) :: kvs, h2)
           end) kts h in
      (SRef (length h'), h' ++ [ODict kvs])
  end.

(** [y.append(a)] *)
Definition obj_append (a : val) (o : obj) : obj :=
  match o with
  | OList vs => OList (vs ++ [a])
  | _ => o
  end.

(** [y[k] = a] *)
Definition obj_setitem (k : string) (a : val) (o : obj) : obj :=
  match o with
  | ODict kvs => ODict (dict_set k a kvs)
  | _ => o
  end.

(** The memo table of [copy.deepcopy]: copies by address of the
    original. *)
Abbreviation memo_table := (gmap loc loc).

(** The loop of [_deepcopy_list] and [_deepcopy_dict]: each item is
    copied and stored into the new object at [y]. *)
Fixpoint copy_items
    (rec : val -> memo_table -> heap -> option (val * memo_table * heap))
    (y : loc) (items : list (val * (val -> obj -> obj)))
    (memo : memo_table) (h : heap) : option (memo_table * heap) :=
  match items with
  | [] => Some (memo, h)
  | (a, store) :: rest =>
      match rec a memo h with
      | None => None
      | Some (a', memo', h') =>
          copy_items rec y rest memo' (alter (store a') y h')
      end
  end.

(** [copy.deepcopy(x, memo)]. Atoms are returned as they are; an object
    already in the memo table gives its recorded copy; a list or dict
    gives a new object, recorded in the memo table before its items are
    copied. [None] stands for running out of recursion depth or
    following a dangling reference. *)
Fixpoint deepcopy (fuel : nat) (x : val) (memo : memo_table) (h : heap)
  : option (val * memo_table * heap) :=
  match fuel with
  | O => None
  | Datatypes.S fuel' =>
      match x with
      | SStr _ | SBool _ => Some (x, memo, h)
      | SRef l =>
          match memo !! l with
          | Some y => Some (SRef y, memo, h)
          | None =>
              let y := length h in
              match h !! l with
              | None => None
              | Some (OList vs) =>
                  match copy_items (deepcopy fuel') y
                          (map (fun a => (a, obj_append)) vs)
                          (<[l := y]> memo) (h ++ [OList []]) with
                  | None => None
                  | Some (memo', h') => Some (SRef y, memo', h')
                  end
              | Some (ODict kvs) =>
                  match copy_items (deepcopy fuel') y
                          (map (fun ka => (snd ka, obj_setitem (fst ka))) kvs)
                          (<[l := y]> memo) (h ++ [ODict []]) with
                  | None => None
                  | Some (memo', h') => Some (SRef y, memo', h')
                  end
              end
          end
      end
  end.

(** The object [o] after the loop has stored the copies [vs'], one per
    item. *)
Fixpoint stored (stores : list (val -> obj -> obj)) (vs' : list val)
    (o : obj) : obj :=
  match stores, vs' with
  | store :: stores', v' :: vs'' => stored stores' vs'' (store v' o)
  | _, _ => o
  end.

(** The module globals with their objects: [_TOOL_HOOKS], the address
    of the dict [_TOOL_DESCRIPTIONS], and the heap. *)
Record state : Type := mkState {
  hooks : dict pyfunc;
  descriptions : loc;
  objects : heap
}.

Definition initial : state := mkState [] 0%nat [ODict []].

(** [register_tool] on the heap: the list and dicts of [tool_def] are
    new objects, and the entry is stored into the dict at
    [descriptions]. *)
Definition register_tool (func : pyfunc) : M state pyfunc :=
  let tool_name := fn_name func in
  tool_description <- getdoc_strip func ;;
  tool_params <- build_params (fn_params func) [] ;;
  let tool_def := mkTool tool_name tool_description tool_params in
  s <- get ;;
  let '(v, h) := alloc (tool_def_tree tool_def) (objects s) in
  put (mkState (dict_set tool_name func (hooks s)) (descriptions s)
               (alter (obj_setitem tool_name v) (descriptions s) h)) ;;;
  ret func.

(** [get_tools] on the heap, with the recursion depth available to
    [copy.deepcopy]. *)
Definition get_tools (fuel : nat) : M state val :=
  s <- get ;;
  match deepcopy fuel (SRef (descriptions s)) ∅ (objects s) with
  | Some (v, _, h) =>
      put (mkState (hooks s) (descriptions s) h) ;;; ret v
  | None => raise (mkExn "RecursionError" "maximum recursion depth exceeded")
  end.

(** The state after registering the functions of [fs] in order. *)
Definition load (fs : list pyfunc) : state :=
  fold_left (fun s f => snd (register_tool f s)) fs initial.

(** A caller writing an object of the structure it holds. *)
Definition mutate (l : loc) (o : obj) (s : state) : state :=
  mkState (hooks s) (descriptions s) (<[l := o]> (objects s)).

(** [tree_at h t v F]: in heap [h] the value [v] unfolds to [t], and [F]
    lists the addresses met, once per visit. *)
Inductive tree_at (h : heap) : tree -> val -> list loc -> Prop :=
  | ta_str s : tree_at h (TStr s) (SStr s) []
  | ta_bool b : tree_at h (TBool b) (SBool b) []
  | ta_list l vs ts F :
      h !! l = Some (OList vs) ->
      trees_at h ts vs F ->
      tree_at h (TList ts) (SRef l) (l :: F)
  | ta_dict l kvs kts F :
      h !! l = Some (ODict kvs) ->
      map fst kvs = map fst kts ->
      NoDup (map fst kvs) ->
      trees_at h (map snd kts) (map snd kvs) F ->
      tree_at h (TDict kts) (SRef l) (l :: F)
with trees_at (h : heap) : list tree -> list val -> list loc -> Prop :=
  | tas_nil : trees_at h [] [] []
  | tas_cons t ts v vs F Fs :
      tree_at h t v F ->
      trees_at h ts vs Fs ->
      trees_at h (t :: ts) (v :: vs) (F ++ Fs).

Fixpoint depth (t : tree) : nat :=
  match t with
  | TStr _ | TBool _ => 1
  | TList ts => Datatypes.S (fold_right (fun t n => Nat.max (depth t) n) 0%nat ts)
  | TDict kts =>
      Datatypes.S (fold_right (fun kt n => Nat.max (depth (snd kt)) n) 0%nat kts)
  end.

(** Every dict of the tree has distinct keys. *)
Fixpoint wf_tree (t : tree) : Prop :=
  match t with
  | TStr _ | TBool _ => True
  | TList ts => fold_right (fun t P => wf_tree t /\ P) True ts
  | TDict kts =>
      NoDup (map fst kts) /\
      fold_right (fun kt P => wf_tree (snd kt) /\ P) True kts
  end.

(** What a structure built or copied onto heap [h] looks like: its
    value, a footprint of new addresses without sharing, and the old
    objects untouched. *)
Definition built (h : heap) (t : tree) (v : val) (h' : heap) : Prop :=
  exists F,
    tree_at h' t v F /\ NoDup F /\
    (forall l, l ∈ F -> (length h <= l)%nat) /\
    (length h <= length h')%nat /\
    (forall l, (l < length h)%nat -> h' !! l = h !! l).

(** The heap state holds the registry [g]: same hooks, and the dict at
    [descriptions] unfolds to the descriptions of [g] without sharing. *)
Definition represents (s : state) (g : registry) : Prop :=
  hooks s = _TOOL_HOOKS g /\
  exists F, tree_at (objects s) (descriptions_tree (_TOOL_DESCRIPTIONS g))
                    (SRef (descriptions s)) F /\ NoDup F.
End Store.

(** ** Further predicates on declarations and registries *)

(** The entry [tp] of [tool_params] carries the name of the declared
    parameter [p], the description and the required flag of its metadata,
    and the type tag the code computes. *)
Definition entry_of (p : string * annotation) (tp : tool_param) : Prop :=
  tp_name tp = fst p /\ tp_type tp = "Annotated" /\
  exists t ms,
    snd p = AnnAnnotated t (VTuple [VStr (tp_description tp);
                                    VBool (tp_required tp)]) ms.

(** Every key of [_TOOL_HOOKS] is the [__name__] of its function and
    every key of [_TOOL_DESCRIPTIONS] is the ["name"] of its entry. *)
Definition names_match (g : registry) : Prop :=
  Forall (fun kf => fn_name (snd kf) = fst kf) (_TOOL_HOOKS g) /\
  Forall (fun kd => td_name (snd kd) = fst kd) (_TOOL_DESCRIPTIONS g).

(** A character of a lower-case hexadecimal numeral. *)
Definition is_hex_char (c : ascii) : bool :=
  let n := nat_of_ascii c in
  ((48 <=? n)%nat && (n <=? 57)%nat) || ((97 <=? n)%nat && (n <=? 102)%nat).

(** ** The adapters and their collaborators *)

(** Decoded JSON as [response.json()] returns it; a float is kept as its
    [repr]. The decoder refuses an integer of more digits than [str]
    accepts, so [repr] of what it returns does not meet that limit. *)
Inductive json : Type :=
  | JNone : json
  | JBool (b : bool) : json
  | JInt (z : Z) : json
  | JFloat (repr : string) : json
  | JStr (s : string) : json
  | JList (xs : list json) : json
  | JDict (kvs : list (string * json)) : json.

(** [repr] of decoded JSON. *)
Fixpoint json_repr (j : json) : string :=
  match j with
  | JNone => "None"
  | JBool true => "True"
  | JBool false => "False"
  | JInt z => pretty z
  | JFloat r => r
  | JStr s => PyStr.repr_str s
  | JList xs => "[" +:+ PyStr.join ", " (map json_repr xs) +:+ "]"
  | JDict kvs =>
      "{" +:+ PyStr.join ", "
                (map (fun kv => PyStr.repr_str (fst kv) +:+ ": "
                                +:+ json_repr (snd kv)) kvs)
          +:+ "}"
  end.

(** [str] of decoded JSON. *)
Definition json_str (j : json) : string :=
  match j with
  | JStr s => s
  | _ => json_repr j
  end.

(** The number of bytes of the UTF-8 character that starts with [c]. *)
Definition utf8_len (c : ascii) : nat :=
  let n := nat_of_ascii c in
  if (n <? 128)%nat then 1%nat
  else if (n <? 224)%nat then 2%nat
  else if (n <? 240)%nat then 3%nat else 4%nat.

Definition not_subscriptable (cls : string) : exn :=
  TypeError ("'" +:+ cls +:+ "' object is not subscriptable").

(** [j[k]] for a string [k]. *)
Definition getitem_key (j : json) (k : string) : exn + json :=
  match j with
  | JDict kvs =>
      match dict_get k kvs with
      | Some v => inr v
      | None => inl (KeyError (PyStr.repr_str k))
      end
  | JList _ => inl (TypeError "list indices must be integers or slices, not str")
  | JStr _ => inl (TypeError "string indices must be integers, not 'str'")
  | JNone => inl (not_subscriptable "NoneType")
  | JBool _ => inl (not_subscriptable "bool")
  | JInt _ => inl (not_subscriptable "int")
  | JFloat _ => inl (not_subscriptable "float")
  end.

(** [j[0]] *)
Definition getitem_0 (j : json) : exn + json :=
  match j with
  | JList (x :: _) => inr x
  | JList [] => inl (mkExn "IndexError" "list index out of range")
  | JStr (String c s) => inr (JStr (String c (substring 0 (utf8_len c - 1) s)))
  | JStr EmptyString => inl (mkExn "IndexError" "string index out of range")
  | JDict _ => inl (KeyError "0")
  | JNone => inl (not_subscriptable "NoneType")
  | JBool _ => inl (not_subscriptable "bool")
  | JInt _ => inl (not_subscriptable "int")
  | JFloat _ => inl (not_subscriptable "float")
  end.

(** An exception raised by a collaborator, on its way up: the stack
    frames [traceback] would render for it, the exception, and whether
    its class derives from [Exception] (the others, like
    [KeyboardInterrupt], derive from [BaseException] only). *)
Record failure : Type := mkFailure {
  fail_frames : string;
  fail_exn : exn;
  fail_is_Exception : bool
}.

(** What [requests.get] returns: what [raise_for_status] raises, if
    anything, and what [json] gives. *)
Record response : Type := mkResponse {
  raise_for_status : option failure;
  json_body : failure + json
}.

(** The fields [get_weather] keeps. *)
Definition key_selection : list (string * list string) :=
  [("current_condition",
    ["temp_C"; "FeelsLikeC"; "humidity"; "weatherDesc"; "observation_time"])].

(** [{_v: resp[k][0][_v] for _v in v}], the dict built so far being
    [acc]. *)
Fixpoint select_fields (resp : json) (k : string) (v : list string)
    (acc : list (string * json)) : exn + list (string * json) :=
  match v with
  | [] => inr acc
  | _v :: rest =>
      match getitem_key resp k with
      | inl e => inl e
      | inr a =>
          match getitem_0 a with
          | inl e => inl e
          | inr b =>
              match getitem_key b _v with
              | inl e => inl e
              | inr x => select_fields resp k rest (dict_set _v x acc)
              end
          end
      end
  end.

(** [{k: {...} for k, v in key_selection.items()}] *)
Fixpoint project (resp : json) (selection : list (string * list string))
    (acc : list (string * json)) : exn + list (string * json) :=
  match selection with
  | [] => inr acc
  | (k, v) :: rest =>
      match select_fields resp k v [] with
      | inl e => inl e
      | inr d => project resp rest (dict_set k (JDict d) acc)
      end
  end.

(** [第] and [段] in UTF-8. *)
Definition char_di : string := utf8 [231; 172; 172].
Definition char_duan : string := utf8 [230; 174; 181].

(** The paragraphs of [search_knowledge_base], numbered from
    [index + 1]. *)
Fixpoint paragraphs (index : nat) (page_contents : list string) : list string :=
  match page_contents with
  | [] => []
  | page_content :: rest =>
      (char_di +:+ " " +:+ pretty (index + 1)%nat +:+ " " +:+ char_duan
         +:+ ": " +:+ page_content)
      :: paragraphs (Datatypes.S index) rest
  end.

Section Adapters.
(** The stack frames rendered for an exception raised at a line of the
    source. *)
Variable frames : nat -> string.

(** [requests.get] *)
Variable requests_get : string -> failure + response.

(** [embeddings.embed_query] and [db.similarity_search_by_vector]; a
    document is its [page_content]. *)
Variable vector : Type.
Variable embed_query : string -> failure + vector.
Variable similarity_search_by_vector : vector -> nat -> failure + list string.

(** The statements of a [try] block that fetches and decodes: the call,
    [raise_for_status()], [json()]. *)
Definition fetch_json (url : string) : failure + json :=
  match requests_get url with
  | inl f => inl f
  | inr resp =>
      match raise_for_status resp with
      | Some f => inl f
      | None => json_body resp
      end
  end.

Definition get_weather_body (kwargs : dict pyval) : outcome :=
  match bind_kwarg "get_weather" "city_name" kwargs with
  | inl e => Raised (frames 72) e
  | inr (VStr city_name) =>
      let attempt :=
        match fetch_json ("https://wttr.in/" +:+ city_name +:+ "?format=j1") with
        | inl f => inl f
        | inr resp =>
            match project resp key_selection [] with
            | inl e => inl (mkFailure (frames 100) e true)
            | inr ret => inr ret
            end
        end in
      match attempt with
      | inr ret => Returned (VStr (json_repr (JDict ret)))
      | inl f =>
          Returned (VStr ("Error encountered while fetching weather data!"
                          +:+ PyStr.newline
                          +:+ format_exc (fail_frames f) (fail_exn f)))
      end
  | inr _ => Raised (frames 90) (TypeError "City name must be a string")
  end.

Definition search_knowledge_base_body (kwargs : dict pyval) : outcome :=
  match bind_kwarg "search_knowledge_base" "query_text" kwargs with
  | inl e => Raised (frames 72) e
  | inr (VStr query_text) =>
      let attempt :=
        match embed_query query_text with
        | inl f => inl f
        | inr query_embedding =>
            similarity_search_by_vector query_embedding 4
        end in
      match attempt with
      | inr similar_documents =>
          Returned (VStr (PyStr.join (PyStr.newline +:+ PyStr.newline)
                                     (paragraphs 0 similar_documents)))
      | inl f =>
          if fail_is_Exception f then
            Returned (VStr ("Error encountered while searching the knowledge base: "
                            +:+ exc_msg (fail_exn f)))
          else Raised (fail_frames f) (fail_exn f)
      end
  | inr _ => Raised (frames 127) (TypeError "Query text must be a string")
  end.

Definition query_ip_body (kwargs : dict pyval) : outcome :=
  match bind_kwarg "query_ip" "ip_address" kwargs with
  | inl e => Raised (frames 72) e
  | inr (VStr ip_address) =>
      match fetch_json ("worker-tight-flower-09d8.cliuxinxin.workers.dev/?ip="
                        +:+ ip_address) with
      | inr j => Returned (VStr (json_str j))
      | inl f =>
          if fail_is_Exception f then
            Returned (VStr ("Error encountered while querying IP address: "
                            +:+ exc_msg (fail_exn f)))
          else Raised (fail_frames f) (fail_exn f)
      end
  | inr _ => Raised (frames 149) (TypeError "IP address must be a string")
  end.

(** The registry of the module with the adapters as written. *)
Definition module_registry_full : registry :=
  module_registry frames get_weather_body search_knowledge_base_body
                  query_ip_body.
End Adapters.

(** [c.lower()] for an ASCII letter. *)
Definition ascii_lower (c : ascii) : ascii :=
  let n := nat_of_ascii c in
  if ((65 <=? n) && (n <=? 90))%nat then ascii_of_nat (n + 32) else c.

Fixpoint lower (s : string) : string :=
  match s with
  | EmptyString => EmptyString
  | String c s' => String (ascii_lower c) (lower s')
  end.

(** The url, in lower case, has one of the prefixes [requests] mounts a
    connection adapter for. *)
Definition has_http_scheme (url : string) : bool :=
  String.prefix "http://" (lower url) || String.prefix "https://" (lower url).

(** ** Sample collaborators *)

(** An answer of the weather service with more than the selected
    fields. *)
Definition sample_condition : json :=
  JDict [("FeelsLikeC", JStr "21"); ("cloudcover", JStr "0");
         ("humidity", JStr "40"); ("observation_time", JStr "08:00 AM");
         ("temp_C", JStr "22");
         ("weatherDesc", JList [JDict [("value", JStr "Sunny")]])].

Definition sample_answer : json :=
  JDict [("current_condition", JList [sample_condition; JDict []]);
         ("nearest_area", JList [])].

Definition sample_response : response := mkResponse None (inr sample_answer).

(** [requests.get] that answers every http url and refuses the others
    as [requests] does. *)
Definition sample_requests_get (url : string) : failure + response :=
  if has_http_scheme url then inr sample_response
  else inl (mkFailure ""
              (mkExn "MissingSchema"
                 ("Invalid URL '" +:+ url +:+ "': No scheme supplied. "
                  +:+ "Perhaps you meant https://" +:+ url +:+ "?"))
              true).

(** A vector store of two documents. *)
Definition sample_embed_query (text : string) : failure + nat := inr (String.length text).
Definition sample_search (v k : nat) : failure + list string :=
  inr (take k ["first document"; "second document"]).

(** * Properties *)

(** ** Dicts *)

Section DictFacts.
Context {V : Type}.
Implicit Types (d : dict V) (k : string) (v : V).

Lemma dict_get_set_eq d k v : dict_get k (dict_set k v d) = Some v.
Proof.
  induction d as [|[k' v'] d IH]; simpl.
  - by rewrite String.eqb_refl.
  - destruct (String.eqb k k') eqn:E; simpl.
    + by rewrite String.eqb_refl.
    + by rewrite E.
Qed.

Lemma dict_get_set_ne d k k' v :
  k <> k' -> dict_get k' (dict_set k v d) = dict_get k' d.
Proof.
  intros Hne. induction d as [|[k0 v0] d IH]; simpl.
  - destruct (String.eqb k' k) eqn:E; [|done].
    apply String.eqb_eq in E. congruence.
  - destruct (String.eqb k k0) eqn:E; simpl.
    + apply String.eqb_eq in E. subst k0.
      destruct (String.eqb k' k) eqn:E'; [|done].
      apply String.eqb_eq in E'. congruence.
    + by rewrite IH.
Qed.

Lemma dict_set_set d k v v' : dict_set k v' (dict_set k v d) = dict_set k v' d.
Proof.
  induction d as [|[k0 v0] d IH]; simpl.
  - by rewrite String.eqb_refl.
  - destruct (String.eqb k k0) eqn:E; simpl.
    + by rewrite String.eqb_refl.
    + by rewrite E, IH.
Qed.

Lemma dict_contains_get d k : dict_contains k d = true <-> is_Some (dict_get k d).
Proof.
  induction d as [|[k0 v0] d IH]; simpl.
  - split; [done | intros [? ?]; done].
  - destruct (String.eqb k k0); [split; eauto | done].
Qed.

Lemma dict_contains_keys d k : dict_contains k d = true <-> k ∈ dict_keys d.
Proof.
  induction d as [|[k0 v0] d IH]; simpl.
  - split; [done | by intros ?%elem_of_nil].
  - rewrite elem_of_cons. destruct (String.eqb k k0) eqn:E.
    + apply String.eqb_eq in E. split; auto.
    + apply String.eqb_neq in E. rewrite IH. simpl. split; [auto | intros [?|?]; done].
Qed.

Lemma dict_keys_set d k v :
  dict_keys (dict_set k v d)
  = if dict_contains k d then dict_keys d else dict_keys d ++ [k].
Proof.
  induction d as [|[k0 v0] d IH]; simpl; [done|].
  destruct (String.eqb k k0) eqn:E; simpl.
  - apply String.eqb_eq in E. by subst.
  - rewrite IH. by destruct (dict_contains k d).
Qed.

Lemma dict_keys_NoDup_set d k v :
  NoDup (dict_keys d) -> NoDup (dict_keys (dict_set k v d)).
Proof.
  intros Hd. rewrite dict_keys_set.
  destruct (dict_contains k d) eqn:E; [done|].
  apply NoDup_app. split_and!; [done | | apply NoDup_singleton].
  intros x Hx ->%list_elem_of_singleton.
  apply dict_contains_keys in Hx. congruence.
Qed.
End DictFacts.

(** Setting the same key in two dicts with the same keys keeps the keys
    the same. *)
Lemma dict_keys_set_same {V W} (d : dict V) (e : dict W) k v w :
  dict_keys d = dict_keys e ->
  dict_keys (dict_set k v d) = dict_keys (dict_set k w e).
Proof.
  revert e. induction d as [|[k0 v0] d IH]; intros [|[k1 w1] e] He;
    simpl in *; try done.
  injection He as -> He. destruct (String.eqb k k1); simpl; [by f_equal|].
  f_equal. by apply IH.
Qed.

(** ** Schema extraction *)

Section Extraction.
Context {St : Type}.
Implicit Types (s : St) (p : string * annotation).

Lemma param_entry_well_formed name a s :
  well_formed_param (name, a) = true ->
  param_entry name a s = (Ok (param_of (name, a)), s).
Proof.
  unfold well_formed_param, param_of. simpl.
  destruct a as [|v|t m ms]; try done.
  destruct m as [| | | |vs|]; try done.
  destruct vs as [|[| | |d| |] [|[|r| | | |] [|? ?]]]; done.
Qed.

Lemma param_entry_malformed name a s :
  well_formed_param (name, a) = false ->
  exists msg, param_entry name a s = (Raise (TypeError msg), s).
Proof.
  unfold well_formed_param. simpl.
  destruct a as [|v|t m ms].
  - eauto.
  - intros _. destruct v as [| | | | |[m n|o args]]; simpl; eauto.
  - destruct m as [| | | |vs|]; simpl; eauto.
    destruct vs as [|[| | |d| |] [|[|r| | | |] [|? ?]]]; simpl; eauto.
    done.
Qed.

Lemma build_params_well_formed ps acc s :
  forallb well_formed_param ps = true ->
  build_params ps acc s = (Ok (acc ++ map param_of ps), s).
Proof.
  revert acc. induction ps as [|[name a] ps IH]; intros acc H; simpl in *.
  - by rewrite app_nil_r.
  - apply andb_prop in H as [Hp Hps].
    unfold bind.
    rewrite (param_entry_well_formed name a s Hp).
    rewrite IH by done. by rewrite <- app_assoc.
Qed.

Lemma build_params_malformed ps acc s :
  forallb well_formed_param ps = false ->
  exists msg, build_params ps acc s = (Raise (TypeError msg), s).
Proof.
  revert acc. induction ps as [|[name a] ps IH]; intros acc H; simpl in *.
  - done.
  - unfold bind. destruct (well_formed_param (name, a)) eqn:Hp.
    + rewrite (param_entry_well_formed name a s Hp). by apply IH.
    + destruct (param_entry_malformed name a s Hp) as [msg ->]. eauto.
Qed.
End Extraction.

(** ** Registration *)

Lemma register_tool_well_formed func doc g :
  fn_doc func = Some doc ->
  forallb well_formed_param (fn_params func) = true ->
  register_tool func g =
    (Ok func,
     mkRegistry
       (dict_set (fn_name func) func (_TOOL_HOOKS g))
       (dict_set (fn_name func)
          (mkTool (fn_name func) (PyStr.strip doc) (map param_of (fn_params func)))
          (_TOOL_DESCRIPTIONS g))).
Proof.
  intros Hdoc Hps. unfold register_tool, getdoc_strip, bind. rewrite Hdoc.
  unfold ret at 1.
  by rewrite (build_params_well_formed _ [] g Hps).
Qed.

Lemma register_tool_undocumented func g :
  fn_doc func = None ->
  register_tool func g =
    (Raise (AttributeError "'NoneType' object has no attribute 'strip'"), g).
Proof. intros Hdoc. unfold register_tool, getdoc_strip, bind. by rewrite Hdoc. Qed.

Lemma register_tool_malformed func g :
  forallb well_formed_param (fn_params func) = false ->
  exists e, register_tool func g = (Raise e, g) /\
            (is_Some (fn_doc func) -> exists msg, e = TypeError msg).
Proof.
  intros Hps. destruct (fn_doc func) as [doc|] eqn:Hdoc.
  - destruct (build_params_malformed (fn_params func) [] g Hps) as [msg Hb].
    exists (TypeError msg). split; [|eauto].
    unfold register_tool, getdoc_strip, bind. rewrite Hdoc.
    unfold ret at 1. by rewrite Hb.
  - eexists. split; [by apply register_tool_undocumented|].
    intros [? ?]. done.
Qed.

(** A registration either stores both entries under the function's name
    or raises and leaves the registry as it was. *)
Lemma register_tool_cases func g :
  (exists e, register_tool func g = (Raise e, g)) \/
  (exists d, register_tool func g =
     (Ok func, mkRegistry (dict_set (fn_name func) func (_TOOL_HOOKS g))
                          (dict_set (fn_name func) d (_TOOL_DESCRIPTIONS g)))).
Proof.
  destruct (fn_doc func) as [doc|] eqn:Hdoc.
  - destruct (forallb well_formed_param (fn_params func)) eqn:Hps.
    + right. eexists. by apply register_tool_well_formed.
    + left. destruct (register_tool_malformed func g Hps) as (e & He & _). eauto.
  - left. eexists. by apply register_tool_undocumented.
Qed.

Lemma register_tool_ok_inv func g x g' :
  register_tool func g = (Ok x, g') ->
  exists doc,
    fn_doc func = Some doc /\
    forallb well_formed_param (fn_params func) = true /\
    x = func /\
    g' = mkRegistry
           (dict_set (fn_name func) func (_TOOL_HOOKS g))
           (dict_set (fn_name func)
              (mkTool (fn_name func) (PyStr.strip doc)
                      (map param_of (fn_params func)))
              (_TOOL_DESCRIPTIONS g)).
Proof.
  intros H. destruct (fn_doc func) as [doc|] eqn:Hdoc.
  - destruct (forallb well_formed_param (fn_params func)) eqn:Hps.
    + rewrite (register_tool_well_formed func doc g Hdoc Hps) in H.
      injection H as <- <-. eauto.
    + destruct (register_tool_malformed func g Hps) as (e & He & _). congruence.
  - rewrite (register_tool_undocumented func g Hdoc) in H. done.
Qed.

(** ** Dispatch and catalog *)

Lemma string_app_assoc (a b c : string) : a +:+ (b +:+ c) = (a +:+ b) +:+ c.
Proof.
  induction a as [|x a IH]; [done|].
  change (String x (a +:+ b +:+ c) = String x ((a +:+ b) +:+ c)).
  by f_equal.
Qed.

Lemma contains_middle (a s b : string) : contains (a +:+ s +:+ b) s.
Proof. by exists a, b. Qed.

Lemma dispatch_tool_not_found depth tool_name tool_params g :
  dict_contains tool_name (_TOOL_HOOKS g) = false ->
  dispatch_tool depth tool_name tool_params g =
    (Ok ("Tool " +:+ bt tool_name +:+ " not found. Please use a provided tool."), g).
Proof. intros H. unfold dispatch_tool, bind, get. by rewrite H. Qed.

(** For a registered name, the call either returns or raises what
    [str] makes of the value returned or of the traceback. *)
Lemma dispatch_tool_found depth tool_name tool_params g f :
  dict_get tool_name (_TOOL_HOOKS g) = Some f ->
  dispatch_tool depth tool_name tool_params g =
    (result_of (py_str depth match fn_call f tool_params with
                             | Returned v => v
                             | Raised frames e => VStr (format_exc frames e)
                             end), g).
Proof.
  intros H. unfold dispatch_tool, bind, get, dict_getitem.
  assert (dict_contains tool_name (_TOOL_HOOKS g) = true) as ->
    by (apply dict_contains_get; eauto).
  simpl. rewrite H. unfold ret. by destruct (fn_call f tool_params).
Qed.



Lemma dispatch_tool_state depth tool_name tool_params g :
  snd (dispatch_tool depth tool_name tool_params g) = g.
Proof.
  destruct (dict_contains tool_name (_TOOL_HOOKS g)) eqn:E.
  - apply dict_contains_get in E as [f Hf].
    by rewrite (dispatch_tool_found _ _ _ _ _ Hf).
  - by rewrite dispatch_tool_not_found.
Qed.

Lemma get_tools_returns g : get_tools g = (Ok (_TOOL_DESCRIPTIONS g), g).
Proof. done. Qed.

(** ** Invariant: both tables have the same keys *)

Lemma exec_same_keys depth o g : same_keys g -> same_keys (exec depth o g).
Proof.
  unfold same_keys. intros H. destruct o as [func|n ps|]; simpl.
  - destruct (register_tool_cases func g) as [[e ->]|[d ->]]; simpl; [done|].
    by apply dict_keys_set_same.
  - by rewrite dispatch_tool_state.
  - done.
Qed.

Lemma exec_all_same_keys depth os g :
  same_keys g -> same_keys (exec_all depth os g).
Proof.
  revert g. induction os as [|o os IH]; intros g H; simpl; [done|].
  apply IH. by apply exec_same_keys.
Qed.

(** ** The claims *)

(** C1. Registering [generate_md5], whose parameter is declared
    [Annotated[str, ("The input string to hash", True)]], succeeds and
    keeps name, description and required flag, but the type tag stored is
    ["Annotated"], the name of the origin of the annotation, while the
    declared type is named ["str"]. *)
Theorem register_tool_type_tag_is_Annotated frames :
  let g := snd (register_tool (generate_md5 frames) empty_registry) in
  fst (register_tool (generate_md5 frames) empty_registry)
    = Ok (generate_md5 frames) /\
  dict_get "generate_md5" (_TOOL_DESCRIPTIONS g)
    = Some (mkTool "generate_md5" "Generate MD5 hash of the provided string."
              [mkParam "input_string" "The input string to hash" "Annotated" true]) /\
  map (fun p => declared_type_name (snd p)) (fn_params (generate_md5 frames))
    = [Some "str"].
Proof. repeat split. Qed.





(** C3. When some parameter of a declaration is malformed (no
    annotation, an annotation that is not [Annotated], metadata that is
    not a tuple of two, a description that is not a string or a required
    flag that is not a bool), registration raises and both tables are
    left as they were; when the function has a docstring the exception is
    the [TypeError] of the first malformed parameter. *)
Theorem register_tool_malformed_unchanged func g :
  forallb well_formed_param (fn_params func) = false ->
  exists e,
    register_tool func g = (Raise e, g) /\
    (is_Some (fn_doc func) -> exists msg, e = TypeError msg).
Proof. apply register_tool_malformed. Qed.

Lemma register_tool_malformed_unchanged_witness :
  let g := snd (register_tool lookup_v1 empty_registry) in
  exists e, register_tool bare_annotation g = (Raise e, g) /\
            exists msg, e = TypeError msg.
Proof.
  intros g.
  destruct (register_tool_malformed_unchanged bare_annotation g) as (e & He & Hty);
    [reflexivity|].
  exists e. split; [exact He|]. apply Hty. by eexists.
Defined.

(** C4. For a name that is not a key of [_TOOL_HOOKS], [dispatch_tool]
    returns, without raising, the message naming the tool, which
    contains ["not found"]. *)
Theorem dispatch_tool_unknown_name depth g tool_name tool_params :
  dict_contains tool_name (_TOOL_HOOKS g) = false ->
  exists out,
    dispatch_tool depth tool_name tool_params g = (Ok out, g) /\
    out = "Tool " +:+ bt tool_name +:+ " not found. Please use a provided tool." /\
    contains out "not found".
Proof.
  intros H. eexists. split_and!; [by apply dispatch_tool_not_found | done |].
  exists ("Tool " +:+ bt tool_name +:+ " "), ". Please use a provided tool.".
  by rewrite <- !string_app_assoc.
Qed.

Lemma dispatch_tool_unknown_name_witness :
  exists out,
    dispatch_tool 1000 "nonexistent_tool" [] empty_registry
      = (Ok out, empty_registry) /\
    out = "Tool `nonexistent_tool` not found. Please use a provided tool." /\
    contains out "not found".
Proof.
  apply (dispatch_tool_unknown_name 1000 empty_registry "nonexistent_tool" []).
  reflexivity.
Defined.

(** C5. When two functions with the same name are registered one after
    the other, the registry is the one obtained by registering the second
    alone: both tables hold the second function and its definition under
    that name, the name occurs once among the keys it had or gained, and
    the catalog returns that definition. *)
Theorem register_tool_last_write_wins f1 f2 g g1 g2 :
  fn_name f1 = fn_name f2 ->
  register_tool f1 g = (Ok f1, g1) ->
  register_tool f2 g1 = (Ok f2, g2) ->
  register_tool f2 g = (Ok f2, g2) /\
  dict_get (fn_name f2) (_TOOL_HOOKS g2) = Some f2 /\
  exists doc,
    fn_doc f2 = Some doc /\
    forall catalog, fst (get_tools g2) = Ok catalog ->
      dict_get (fn_name f2) catalog
      = Some (mkTool (fn_name f2) (PyStr.strip doc) (map param_of (fn_params f2))).
Proof.
  intros Hname H1 H2.
  apply register_tool_ok_inv in H1 as (doc1 & Hd1 & Hp1 & _ & ->).
  apply register_tool_ok_inv in H2 as (doc2 & Hd2 & Hp2 & _ & ->).
  simpl. rewrite Hname, !dict_set_set. split_and!.
  - by apply register_tool_well_formed.
  - apply dict_get_set_eq.
  - exists doc2. split; [done|]. intros catalog [= <-]. apply dict_get_set_eq.
Qed.

Lemma register_tool_last_write_wins_witness :
  let g1 := snd (register_tool lookup_v1 empty_registry) in
  let g2 := snd (register_tool lookup_v2 g1) in
  register_tool lookup_v2 empty_registry = (Ok lookup_v2, g2) /\
  dict_get "lookup" (_TOOL_HOOKS g2) = Some lookup_v2.
Proof.
  intros g1 g2.
  destruct (register_tool_last_write_wins lookup_v1 lookup_v2 empty_registry g1 g2)
    as (H1 & H2 & _); [reflexivity..|].
  split; [exact H1 | exact H2].
Defined.

Lemma generate_md5_call_abc frames :
  generate_md5_call frames [("input_string", VStr "abc")]
  = Returned (VStr "900150983cd24fb0d6963f7d28e17f72").
Proof. vm_compute. reflexivity. Qed.

(** C7. After the module is loaded, dispatching ["generate_md5"] with
    [{"input_string": "abc"}] returns the hexadecimal digest
    [900150983cd24fb0d6963f7d28e17f72]. *)
Theorem dispatch_generate_md5_abc depth frames weather search ip :
  dispatch_tool depth "generate_md5" [("input_string", VStr "abc")]
    (module_registry frames weather search ip)
  = (Ok "900150983cd24fb0d6963f7d28e17f72",
     module_registry frames weather search ip).
Proof.
  rewrite (dispatch_tool_found _ _ _ _ (generate_md5 frames)) by reflexivity.
  cbn [fn_call generate_md5]. by rewrite generate_md5_call_abc.
Qed.

(** C8, as amended. [register_tool] does not check that the description
    is non-empty. A function without a docstring makes it raise the
    [AttributeError] of calling [strip] on [None], with the registry
    unchanged; a function with a docstring, even an empty or blank one,
    and well-formed parameters is registered with the stripped docstring
    as its description. *)
Theorem register_tool_description_unchecked func g :
  (fn_doc func = None ->
   register_tool func g =
     (Raise (AttributeError "'NoneType' object has no attribute 'strip'"), g)) /\
  (forall doc,
     fn_doc func = Some doc ->
     forallb well_formed_param (fn_params func) = true ->
     exists g',
       register_tool func g = (Ok func, g') /\
       option_map td_description (dict_get (fn_name func) (_TOOL_DESCRIPTIONS g'))
       = Some (PyStr.strip doc)).
Proof.
  split.
  - apply register_tool_undocumented.
  - intros doc Hdoc Hps. eexists. split.
    + by apply register_tool_well_formed.
    + simpl. by rewrite dict_get_set_eq.
Qed.

Lemma register_tool_description_unchecked_witness :
  register_tool undocumented empty_registry =
    (Raise (AttributeError "'NoneType' object has no attribute 'strip'"),
     empty_registry) /\
  exists g',
    register_tool blank_doc empty_registry = (Ok blank_doc, g') /\
    option_map td_description (dict_get "blank_doc" (_TOOL_DESCRIPTIONS g'))
    = Some "".
Proof.
  split.
  - apply (proj1 (register_tool_description_unchecked undocumented empty_registry)).
    reflexivity.
  - apply (proj2 (register_tool_description_unchecked blank_doc empty_registry) "");
      reflexivity.
Defined.

(** C8, as stated, fails: a function whose docstring is empty is
    registered, with an empty description, and nothing is raised. *)
Lemma register_tool_accepts_empty_description :
  fn_doc blank_doc = Some "" /\
  register_tool blank_doc empty_registry =
    (Ok blank_doc,
     mkRegistry [("blank_doc", blank_doc)]
                [("blank_doc", mkTool "blank_doc" "" [])]) /\
  ~ exists e, fst (register_tool blank_doc empty_registry) = Raise e.
Proof. split_and!; [done | done |]. intros [e He]. discriminate He. Qed.

(** C9. Every operation keeps the two tables on the same keys: if
    [_TOOL_HOOKS] and [_TOOL_DESCRIPTIONS] have the same keys before a
    call of [register_tool], [dispatch_tool] or [get_tools], they have
    the same keys after it, whether the call returned or raised. *)
Theorem same_keys_preserved depth o g :
  same_keys g -> same_keys (exec depth o g).
Proof. apply exec_same_keys. Qed.

Lemma same_keys_preserved_witness :
  same_keys (exec 1000 (OpRegister lookup_v2)
                  (exec 1000 (OpRegister lookup_v1) empty_registry)).
Proof.
  apply same_keys_preserved. apply same_keys_preserved. reflexivity.
Defined.

(** C10. [dispatch_tool] and [get_tools] leave [_TOOL_HOOKS] and
    [_TOOL_DESCRIPTIONS] as they were, for every registry and every
    input. *)
Theorem dispatch_and_get_tools_read_only depth g tool_name tool_params :
  snd (dispatch_tool depth tool_name tool_params g) = g /\
  snd (get_tools g) = g.
Proof. split; [apply dispatch_tool_state | done]. Qed.

(** ** The heap: structures and their footprints *)

Scheme tree_at_mut := Minimality for Store.tree_at Sort Prop
  with trees_at_mut := Minimality for Store.trees_at Sort Prop.
Combined Scheme tree_at_mutind from tree_at_mut, trees_at_mut.

Section StoreFacts.
Import Store(loc, heap, memo_table, val(..), obj(..), tree(..), state(..),
             param_tree, tool_def_tree, descriptions_tree, alloc,
             obj_append, obj_setitem, copy_items, deepcopy, stored,
             hooks, descriptions, objects, mkState, initial, load, mutate,
             tree_at(..), trees_at(..), depth, wf_tree, built, represents).
Local Open Scope nat_scope.
Implicit Types (h : heap) (t : tree) (v : val) (F : list loc) (l y : loc).

(** Every address of a footprint holds an object. *)
Lemma tree_at_allocated h :
  (forall t v F, tree_at h t v F -> forall l, l ∈ F -> l < length h) /\
  (forall ts vs F, trees_at h ts vs F -> forall l, l ∈ F -> l < length h).
Proof.
  apply tree_at_mutind.
  - intros s l Hl. by apply elem_of_nil in Hl.
  - intros b l Hl. by apply elem_of_nil in Hl.
  - intros l vs ts F Hl _ IH l' [->|Hl']%elem_of_cons; [|by apply IH].
    by eapply lookup_lt_Some.
  - intros l kvs kts F Hl _ _ _ IH l' [->|Hl']%elem_of_cons; [|by apply IH].
    by eapply lookup_lt_Some.
  - intros l Hl. by apply elem_of_nil in Hl.
  - intros t ts v vs F Fs _ IH1 _ IH2 l [?|?]%elem_of_app; auto.
Qed.

(** A structure only depends on the objects of its footprint. *)
Lemma tree_at_frame h :
  (forall t v F, tree_at h t v F ->
     forall h', (forall l, l ∈ F -> h' !! l = h !! l) -> tree_at h' t v F) /\
  (forall ts vs F, trees_at h ts vs F ->
     forall h', (forall l, l ∈ F -> h' !! l = h !! l) -> trees_at h' ts vs F).
Proof.
  apply tree_at_mutind.
  - constructor.
  - constructor.
  - intros l vs ts F Hl _ IH h' Hh'. econstructor.
    + rewrite Hh'; [done | apply elem_of_cons; auto].
    + apply IH. intros l' Hl'. apply Hh', elem_of_cons. auto.
  - intros l kvs kts F Hl Hk Hnd _ IH h' Hh'. econstructor; [|done..|].
    + rewrite Hh'; [done | apply elem_of_cons; auto].
    + apply IH. intros l' Hl'. apply Hh', elem_of_cons. auto.
  - constructor.
  - intros t ts v vs F Fs _ IH1 _ IH2 h' Hh'. constructor.
    + apply IH1. intros l Hl. apply Hh', elem_of_app. auto.
    + apply IH2. intros l Hl. apply Hh', elem_of_app. auto.
Qed.

Lemma trees_at_length h ts vs F :
  trees_at h ts vs F -> length ts = length vs.
Proof. induction 1; simpl; auto. Qed.

Lemma stored_append (vs vs' acc : list val) :
  length vs = length vs' ->
  stored (map snd (map (fun a => (a, obj_append)) vs)) vs' (OList acc)
  = OList (acc ++ vs').
Proof.
  revert vs' acc. induction vs as [|a vs IH]; intros [|a' vs'] acc Hlen;
    simpl in *; try done.
  - by rewrite app_nil_r.
  - rewrite IH by lia. by rewrite <- app_assoc.
Qed.

Lemma dict_set_fresh {V} (d : dict V) k (x : V) :
  k ∉ map fst d -> dict_set k x d = d ++ [(k, x)].
Proof.
  induction d as [|[k0 x0] d IH]; simpl; [done|].
  intros Hk. apply not_elem_of_cons in Hk as [Hne Hk].
  destruct (String.eqb k k0) eqn:E.
  - apply String.eqb_eq in E. done.
  - by rewrite IH.
Qed.

Lemma stored_setitem (kvs : dict val) (vs' : list val) (acc : dict val) :
  length kvs = length vs' ->
  NoDup (map fst acc ++ map fst kvs) ->
  stored (map snd (map (fun ka => (snd ka, obj_setitem (fst ka))) kvs)) vs'
         (ODict acc)
  = ODict (acc ++ combine (map fst kvs) vs').
Proof.
  revert vs' acc. induction kvs as [|[k a] kvs IH]; intros [|a' vs'] acc Hlen Hnd;
    simpl in *; try done.
  - by rewrite app_nil_r.
  - rewrite dict_set_fresh.
    + rewrite IH; [by rewrite <- app_assoc | lia |].
      rewrite map_app. simpl. by rewrite <- app_assoc.
    + apply NoDup_app in Hnd as (_ & Hd & _). intros Hk.
      apply (Hd k Hk). apply elem_of_cons. auto.
Qed.

Lemma map_fst_combine {A B} (xs : list A) (ys : list B) :
  length xs = length ys -> map fst (combine xs ys) = xs.
Proof.
  revert ys. induction xs as [|x xs IH]; intros [|y ys] Hlen; simpl in *;
    try done. f_equal. apply IH. lia.
Qed.

Lemma map_snd_combine {A B} (xs : list A) (ys : list B) :
  length xs = length ys -> map snd (combine xs ys) = ys.
Proof.
  revert ys. induction xs as [|x xs IH]; intros [|y ys] Hlen; simpl in *;
    try done. f_equal. apply IH. lia.
Qed.
Lemma depth_list_children ts fuel :
  fold_right (fun t n => Nat.max (depth t) n) 0 ts <= fuel ->
  Forall (fun t => depth t <= fuel) ts.
Proof.
  induction ts as [|t ts IH]; simpl; intros H; constructor; [lia|].
  apply IH. lia.
Qed.

Lemma depth_dict_children (kts : list (string * tree)) fuel :
  fold_right (fun kt n => Nat.max (depth (snd kt)) n) 0 kts <= fuel ->
  Forall (fun t => depth t <= fuel) (map snd kts).
Proof.
  induction kts as [|kt kts IH]; simpl; intros H; constructor; [lia|].
  apply IH. lia.
Qed.

(** [copy.deepcopy] of a structure without sharing, none of whose
    objects is in the memo table: with enough recursion depth it returns
    a structure with the same value, made of new objects only, and
    changes no object that existed. *)
Lemma deepcopy_tree h :
  (forall t v F, tree_at h t v F ->
     forall fuel (m : memo_table) hc,
       depth t <= fuel -> NoDup F ->
       (forall l, l ∈ F -> m !! l = None) ->
       (forall l, l ∈ F -> hc !! l = h !! l) ->
       exists v' (m' : memo_table) h' F',
         deepcopy fuel v m hc = Some (v', m', h') /\
         tree_at h' t v' F' /\ NoDup F' /\
         (forall l, l ∈ F' -> length hc <= l) /\
         length hc <= length h' /\
         (forall l, l < length hc -> h' !! l = hc !! l) /\
         (forall l, l ∉ F -> m' !! l = m !! l)) /\
  (forall ts vs F, trees_at h ts vs F ->
     forall fuel (m : memo_table) hc y items,
       map fst items = vs ->
       Forall (fun t => depth t <= fuel) ts -> NoDup F ->
       (forall l, l ∈ F -> m !! l = None) ->
       (forall l, l ∈ F -> hc !! l = h !! l) ->
       y < length hc -> y ∉ F ->
       exists (m' : memo_table) h' vs' F',
         copy_items (deepcopy fuel) y items m hc = Some (m', h') /\
         trees_at h' ts vs' F' /\ NoDup F' /\
         (forall l, l ∈ F' -> length hc <= l) /\
         length hc <= length h' /\
         (forall l, l < length hc -> l <> y -> h' !! l = hc !! l) /\
         h' !! y = stored (map snd items) vs' <$> hc !! y /\
         (forall l, l ∉ F -> m' !! l = m !! l)).
Proof.
  apply tree_at_mutind.
  - intros s fuel m hc Hfuel _ _ _.
    destruct fuel as [|fuel]; [simpl in Hfuel; lia|].
    exists (SStr s), m, hc, []. split_and!; try done; try constructor.
    intros l Hl. by apply elem_of_nil in Hl.
  - intros b fuel m hc Hfuel _ _ _.
    destruct fuel as [|fuel]; [simpl in Hfuel; lia|].
    exists (SBool b), m, hc, []. split_and!; try done; try constructor.
    intros l Hl. by apply elem_of_nil in Hl.
  - intros l vs ts F Hl Hts IH fuel m hc Hfuel Hnd Hm Hhc.
    destruct fuel as [|fuel]; [simpl in Hfuel; lia|].
    apply NoDup_cons in Hnd as [HlF HndF].
    assert (m !! l = None) as Hml by (apply Hm, elem_of_cons; auto).
    assert (hc !! l = Some (OList vs)) as Hhl
      by (rewrite Hhc; [done | apply elem_of_cons; auto]).
    assert (forall l', l' ∈ F -> l' < length hc) as HFlt.
    { intros l' Hl'. apply lookup_lt_is_Some.
      rewrite Hhc by (apply elem_of_cons; auto).
      apply lookup_lt_is_Some_2.
      by eapply (proj2 (tree_at_allocated h)). }
    destruct (IH fuel (<[l:=length hc]> m) (hc ++ [OList []]) (length hc)
                (map (fun a => (a, obj_append)) vs))
      as (m' & h' & vs' & F' & Hcopy & Hts' & Hnd' & Hfresh & Hlen & Hframe
          & Hy & Hmemo).
    { rewrite map_map. simpl. apply map_id. }
    { apply depth_list_children. simpl in Hfuel. lia. }
    { done. }
    { intros l' Hl'. rewrite lookup_insert_ne by (by intros ->).
      apply Hm, elem_of_cons. auto. }
    { intros l' Hl'. rewrite lookup_app_l by auto.
      apply Hhc, elem_of_cons. auto. }
    { rewrite length_app. simpl. lia. }
    { intros Hin. apply HFlt in Hin. lia. }
    rewrite length_app in Hfresh, Hlen, Hframe. simpl in Hfresh, Hlen, Hframe.
    exists (SRef (length hc)), m', h', (length hc :: F'). split_and!.
    + simpl. by rewrite Hml, Hhl, Hcopy.
    + econstructor; [|exact Hts'].
      rewrite Hy, lookup_app_r, Nat.sub_diag by lia. simpl.
      rewrite stored_append; [done|].
      apply trees_at_length in Hts, Hts'. congruence.
    + apply NoDup_cons. split; [|done]. intros Hin%Hfresh. lia.
    + intros l' [->|Hl'%Hfresh]%elem_of_cons; lia.
    + lia.
    + intros l' Hl'. rewrite Hframe by lia. by apply lookup_app_l.
    + intros l' [Hne Hl']%not_elem_of_cons.
      rewrite Hmemo by done. by apply lookup_insert_ne.
  - intros l kvs kts F Hl Hkeys Hndk Hts IH fuel m hc Hfuel Hnd Hm Hhc.
    destruct fuel as [|fuel]; [simpl in Hfuel; lia|].
    apply NoDup_cons in Hnd as [HlF HndF].
    assert (m !! l = None) as Hml by (apply Hm, elem_of_cons; auto).
    assert (hc !! l = Some (ODict kvs)) as Hhl
      by (rewrite Hhc; [done | apply elem_of_cons; auto]).
    assert (forall l', l' ∈ F -> l' < length hc) as HFlt.
    { intros l' Hl'. apply lookup_lt_is_Some.
      rewrite Hhc by (apply elem_of_cons; auto).
      apply lookup_lt_is_Some_2.
      by eapply (proj2 (tree_at_allocated h)). }
    destruct (IH fuel (<[l:=length hc]> m) (hc ++ [ODict []]) (length hc)
                (map (fun ka => (snd ka, obj_setitem (fst ka))) kvs))
      as (m' & h' & vs' & F' & Hcopy & Hts' & Hnd' & Hfresh & Hlen & Hframe
          & Hy & Hmemo).
    { rewrite map_map. done. }
    { apply depth_dict_children. simpl in Hfuel. lia. }
    { done. }
    { intros l' Hl'. rewrite lookup_insert_ne by (by intros ->).
      apply Hm, elem_of_cons. auto. }
    { intros l' Hl'. rewrite lookup_app_l by auto.
      apply Hhc, elem_of_cons. auto. }
    { rewrite length_app. simpl. lia. }
    { intros Hin. apply HFlt in Hin. lia. }
    rewrite length_app in Hfresh, Hlen, Hframe. simpl in Hfresh, Hlen, Hframe.
    assert (length (map fst kvs) = length vs') as Hlenk.
    { apply trees_at_length in Hts'. rewrite <- Hts', Hkeys.
      by rewrite !length_map. }
    exists (SRef (length hc)), m', h', (length hc :: F'). split_and!.
    + simpl. by rewrite Hml, Hhl, Hcopy.
    + apply (ta_dict h' _ (combine (map fst kvs) vs')).
      * rewrite Hy, lookup_app_r, Nat.sub_diag by lia. simpl.
        rewrite stored_setitem; [done | by rewrite length_map in Hlenk | done].
      * by rewrite map_fst_combine.
      * by rewrite map_fst_combine.
      * by rewrite map_snd_combine.
    + apply NoDup_cons. split; [|done]. intros Hin%Hfresh. lia.
    + intros l' [->|Hl'%Hfresh]%elem_of_cons; lia.
    + lia.
    + intros l' Hl'. rewrite Hframe by lia. by apply lookup_app_l.
    + intros l' [Hne Hl']%not_elem_of_cons.
      rewrite Hmemo by done. by apply lookup_insert_ne.
  - intros fuel m hc y items Hitems _ _ _ _ _ _.
    destruct items; [|done].
    exists m, hc, [], []. split_and!.
    + done.
    + constructor.
    + constructor.
    + intros l Hl. by apply elem_of_nil in Hl.
    + done.
    + done.
    + simpl. by destruct (hc !! y).
    + done.
  - intros t ts v vs F Fs Ht IHt Hts IHts fuel m hc y items Hitems Hdepth Hnd
      Hm Hhc Hy HyF.
    destruct items as [|[a store] items]; [done|].
    simpl in Hitems. injection Hitems as -> Hitems.
    apply Forall_cons in Hdepth as [Hd Hds].
    apply NoDup_app in Hnd as (HndF & Hdisj & HndFs).
    apply not_elem_of_app in HyF as [HyF HyFs].
    destruct (IHt fuel m hc)
      as (v1 & m1 & h1 & F1 & Hc1 & Ht1 & Hnd1 & Hfr1 & Hlen1 & Hframe1 & Hmemo1);
      [done | done | | |].
    { intros l Hl. apply Hm, elem_of_app. auto. }
    { intros l Hl. apply Hhc, elem_of_app. auto. }
    assert (forall l, l ∈ Fs -> l < length hc) as HFslt.
    { intros l Hl. apply lookup_lt_is_Some.
      rewrite Hhc by (apply elem_of_app; auto).
      apply lookup_lt_is_Some_2.
      by eapply (proj2 (tree_at_allocated h)). }
    destruct (IHts fuel m1 (alter (store v1) y h1) y items)
      as (m2 & h2 & vs2 & F2 & Hc2 & Hts2 & Hnd2 & Hfr2 & Hlen2 & Hframe2
          & Hy2 & Hmemo2); [done | done | done | | | | done |].
    { intros l Hl. rewrite Hmemo1; [apply Hm, elem_of_app; auto|].
      intros HlF. by apply (Hdisj l). }
    { intros l Hl.
      rewrite list_lookup_alter_ne by (by intros ->).
      rewrite Hframe1 by auto. apply Hhc, elem_of_app. auto. }
    { rewrite length_alter. lia. }
    rewrite length_alter in Hfr2, Hlen2, Hframe2.
    assert (forall l, l ∈ F1 -> l < length h1) as HF1lt
      by (intros l Hl; by eapply (proj1 (tree_at_allocated h1))).
    exists m2, h2, (v1 :: vs2), (F1 ++ F2). split_and!.
    + simpl. by rewrite Hc1.
    + constructor; [|done].
      apply (proj1 (tree_at_frame h1) _ _ _ Ht1). intros l Hl.
      pose proof (Hfr1 l Hl). pose proof (HF1lt l Hl).
      rewrite Hframe2 by lia. apply list_lookup_alter_ne. lia.
    + apply NoDup_app. split_and!; [done | | done].
      intros l Hl1 Hl2. apply HF1lt in Hl1. apply Hfr2 in Hl2. lia.
    + intros l [Hl%Hfr1|Hl%Hfr2]%elem_of_app; lia.
    + lia.
    + intros l Hl Hne. rewrite Hframe2 by lia.
      rewrite list_lookup_alter_ne by done. by apply Hframe1.
    + rewrite Hy2, list_lookup_alter_eq, Hframe1 by done. simpl.
      by destruct (hc !! y).
    + intros l [HlF HlFs]%not_elem_of_app.
      rewrite Hmemo2 by done. by apply Hmemo1.
Qed.
Lemma alloc_built n : forall t h,
  depth t <= n -> wf_tree t ->
  exists v h', alloc t h = (v, h') /\ built h t v h'.
Proof.
  induction n as [|n IH]; intros t h Hd Hwf.
  { destruct t; simpl in Hd; lia. }
  destruct t as [s|b|ts|kts].
  - exists (SStr s), h. split; [done|]. exists []. split_and!; try done.
    + constructor.
    + constructor.
    + intros l Hl. by apply elem_of_nil in Hl.
  - exists (SBool b), h. split; [done|]. exists []. split_and!; try done.
    + constructor.
    + constructor.
    + intros l Hl. by apply elem_of_nil in Hl.
  - simpl in Hd. apply le_S_n, depth_list_children in Hd. simpl in Hwf.
    set (go := fix go (ts : list tree) (h : heap) : list val * heap :=
           match ts with
           | [] => ([], h)
           | t :: ts' =>
               let '(v, h1) := alloc t h in
               let '(vs, h2) := go ts' h1 in (v :: vs, h2)
           end).
    assert (forall ts h, Forall (fun t => depth t <= n) ts ->
              fold_right (fun t P => wf_tree t /\ P) True ts ->
              exists vs h' F, go ts h = (vs, h') /\
                trees_at h' ts vs F /\ NoDup F /\
                (forall l, l ∈ F -> length h <= l) /\
                length h <= length h' /\
                (forall l, l < length h -> h' !! l = h !! l)) as Hgo.
    { clear ts h Hd Hwf. induction ts as [|t ts IHts]; intros h Hd Hwf.
      - exists [], h, []. split_and!; try done; try constructor.
        intros l Hl. by apply elem_of_nil in Hl.
      - apply Forall_cons in Hd as [Hdt Hdts]. destruct Hwf as [Hwt Hwts].
        destruct (IH t h Hdt Hwt) as (v & h1 & Hv & F1 & Ht & Hnd1 & Hfr1 & Hl1 & Hf1).
        destruct (IHts h1 Hdts Hwts)
          as (vs & h2 & F2 & Hvs & Hts & Hnd2 & Hfr2 & Hl2 & Hf2).
        exists (v :: vs), h2, (F1 ++ F2). split_and!.
        + simpl. by rewrite Hv, Hvs.
        + constructor; [|done].
          apply (proj1 (tree_at_frame h1) _ _ _ Ht). intros l Hl.
          apply Hf2. by eapply (proj1 (tree_at_allocated h1)).
        + apply NoDup_app. split_and!; [done | | done].
          intros l Hl1' Hl2'. apply Hfr2 in Hl2'.
          apply (proj1 (tree_at_allocated h1) _ _ _ Ht) in Hl1'. lia.
        + intros l [Hl%Hfr1|Hl%Hfr2]%elem_of_app; lia.
        + lia.
        + intros l Hl. rewrite Hf2 by lia. by apply Hf1. }
    destruct (Hgo ts h Hd Hwf) as (vs & h' & F & Hvs & Hts & Hnd & Hfr & Hl & Hf).
    exists (SRef (length h')), (h' ++ [OList vs]). split.
    { simpl. fold go. by rewrite Hvs. }
    exists (length h' :: F).
    assert (forall l, l ∈ F -> l < length h') as Hlt
      by (intros l Hl'; by eapply (proj2 (tree_at_allocated h'))).
    split_and!.
    + econstructor.
      * by apply list_lookup_middle.
      * apply (proj2 (tree_at_frame h') _ _ _ Hts). intros l Hl'.
        apply lookup_app_l. auto.
    + apply NoDup_cons. split; [|done]. intros Hin%Hlt. lia.
    + intros l [->|Hl'%Hfr]%elem_of_cons; lia.
    + rewrite length_app. simpl. lia.
    + intros l Hl'. rewrite lookup_app_l by lia. by apply Hf.
  - simpl in Hd. apply le_S_n, depth_dict_children in Hd.
    destruct Hwf as [Hkeys Hwf].
    set (go := fix go (kts : list (string * tree)) (h : heap) : dict val * heap :=
           match kts with
           | [] => ([], h)
           | (k, t) :: kts' =>
               let '(v, h1) := alloc t h in
               let '(kvs, h2) := go kts' h1 in ((k, v) :: kvs, h2)
           end).
    assert (forall kts h, Forall (fun t => depth t <= n) (map snd kts) ->
              fold_right (fun kt P => wf_tree (snd kt) /\ P) True kts ->
              exists kvs h' F, go kts h = (kvs, h') /\
                map fst kvs = map fst kts /\
                trees_at h' (map snd kts) (map snd kvs) F /\ NoDup F /\
                (forall l, l ∈ F -> length h <= l) /\
                length h <= length h' /\
                (forall l, l < length h -> h' !! l = h !! l)) as Hgo.
    { clear kts h Hd Hwf Hkeys.
      induction kts as [|[k t] kts IHts]; intros h Hd Hwf.
      - exists [], h, []. split_and!; try done; try constructor.
        intros l Hl. by apply elem_of_nil in Hl.
      - simpl in Hd. apply Forall_cons in Hd as [Hdt Hdts].
        destruct Hwf as [Hwt Hwts].
        destruct (IH t h Hdt Hwt) as (v & h1 & Hv & F1 & Ht & Hnd1 & Hfr1 & Hl1 & Hf1).
        destruct (IHts h1 Hdts Hwts)
          as (kvs & h2 & F2 & Hvs & Hk & Hts & Hnd2 & Hfr2 & Hl2 & Hf2).
        exists ((k, v) :: kvs), h2, (F1 ++ F2). split_and!.
        + simpl. by rewrite Hv, Hvs.
        + simpl. by rewrite Hk.
        + simpl. constructor; [|done].
          apply (proj1 (tree_at_frame h1) _ _ _ Ht). intros l Hl.
          apply Hf2. by eapply (proj1 (tree_at_allocated h1)).
        + apply NoDup_app. split_and!; [done | | done].
          intros l Hl1' Hl2'. apply Hfr2 in Hl2'.
          apply (proj1 (tree_at_allocated h1) _ _ _ Ht) in Hl1'. lia.
        + intros l [Hl%Hfr1|Hl%Hfr2]%elem_of_app; lia.
        + lia.
        + intros l Hl. rewrite Hf2 by lia. by apply Hf1. }
    destruct (Hgo kts h Hd Hwf)
      as (kvs & h' & F & Hvs & Hk & Hts & Hnd & Hfr & Hl & Hf).
    exists (SRef (length h')), (h' ++ [ODict kvs]). split.
    { simpl. fold go. by rewrite Hvs. }
    exists (length h' :: F).
    assert (forall l, l ∈ F -> l < length h') as Hlt
      by (intros l Hl'; by eapply (proj2 (tree_at_allocated h'))).
    split_and!.
    + econstructor.
      * by apply list_lookup_middle.
      * done.
      * by rewrite Hk.
      * apply (proj2 (tree_at_frame h') _ _ _ Hts). intros l Hl'.
        apply lookup_app_l. auto.
    + apply NoDup_cons. split; [|done]. intros Hin%Hlt. lia.
    + intros l [->|Hl'%Hfr]%elem_of_cons; lia.
    + rewrite length_app. simpl. lia.
    + intros l Hl'. rewrite lookup_app_l by lia. by apply Hf.
Qed.
Lemma trees_at_cons_inv h t ts v vs F :
  trees_at h (t :: ts) (v :: vs) F ->
  exists F1 F2, F = F1 ++ F2 /\ tree_at h t v F1 /\ trees_at h ts vs F2.
Proof. inversion 1; subst. eauto. Qed.

(** Storing a structure under a key of a dict whose entries are
    structures: the entries are structures again, over addresses of the
    old entries and of the new one. *)
Lemma trees_at_dict_set h k t v Fv :
  tree_at h t v Fv -> NoDup Fv ->
  forall (kts : list (string * tree)) (kvs : dict val) F,
    map fst kvs = map fst kts ->
    trees_at h (map snd kts) (map snd kvs) F ->
    NoDup F -> (forall l, l ∈ F -> l ∉ Fv) ->
    exists F',
      trees_at h (map snd (dict_set k t kts)) (map snd (dict_set k v kvs)) F' /\
      NoDup F' /\ (forall l, l ∈ F' -> l ∈ F \/ l ∈ Fv) /\
      map fst (dict_set k v kvs) = map fst (dict_set k t kts).
Proof.
  intros Ht HndV. induction kts as [|[k0 t0] kts IH];
    intros [|[k0' v0] kvs] F Hk Hts Hnd Hdisj; simpl in Hk; try done.
  - exists (Fv ++ []). simpl. split_and!.
    + constructor; [done | constructor].
    + by rewrite app_nil_r.
    + intros l Hl. rewrite app_nil_r in Hl. auto.
    + done.
  - injection Hk as -> Hk. simpl in Hts.
    apply trees_at_cons_inv in Hts as (F1 & F2 & -> & Ht0 & Hts).
    apply NoDup_app in Hnd as (Hnd1 & Hd12 & Hnd2).
    simpl. destruct (String.eqb k k0) eqn:E; simpl.
    + exists (Fv ++ F2). split_and!.
      * by constructor.
      * apply NoDup_app. split_and!; [done | | done].
        intros l HlV Hl2. apply (Hdisj l); [apply elem_of_app; auto | done].
      * intros l [?|?]%elem_of_app; [auto|]. left. apply elem_of_app. auto.
      * by rewrite Hk.
    + destruct (IH kvs F2 Hk Hts Hnd2) as (F' & Hts' & Hnd' & Hsub & Hk').
      { intros l Hl. apply Hdisj, elem_of_app. auto. }
      exists (F1 ++ F'). split_and!.
      * by constructor.
      * apply NoDup_app. split_and!; [done | | done].
        intros l Hl1 [Hl2|HlV]%Hsub; [by apply (Hd12 l)|].
        apply (Hdisj l); [apply elem_of_app; auto | done].
      * intros l [?|[?|?]%Hsub]%elem_of_app; [left|left|right];
          try apply elem_of_app; auto.
      * by rewrite Hk'.
Qed.

Lemma descriptions_tree_set k d (ds : dict tool_def) :
  descriptions_tree (dict_set k d ds)
  = TDict (dict_set k (tool_def_tree d)
             (map (fun kd => (fst kd, tool_def_tree (snd kd))) ds)).
Proof.
  unfold descriptions_tree. f_equal.
  induction ds as [|[k0 d0] ds IH]; simpl; [done|].
  destruct (String.eqb k k0); simpl; [done | by rewrite IH].
Qed.

Lemma wf_tool_def_tree d : wf_tree (tool_def_tree d).
Proof.
  simpl. split; [compute_done|]. split_and!; try done.
  induction (td_params d) as [|p ps IH]; simpl; [done|].
  split; [|done]. split; [compute_done | done].
Qed.

Lemma depth_tool_def_tree d : depth (tool_def_tree d) <= 4.
Proof.
  simpl.
  assert (fold_right (fun t n => Nat.max (depth t) n) 0
            (map param_tree (td_params d)) <= 2) as H.
  { induction (td_params d) as [|p ps IH]; simpl in *; lia. }
  lia.
Qed.

Lemma depth_descriptions_tree (ds : dict tool_def) :
  depth (descriptions_tree ds) <= 5.
Proof.
  unfold descriptions_tree. cbn [depth]. apply le_n_S.
  induction ds as [|[k d] ds IH]; cbn [map fold_right fst snd]; [lia|].
  pose proof (depth_tool_def_tree d). lia.
Qed.
(** ** Registration on the heap *)

Lemma store_register_tool_well_formed func doc s :
  fn_doc func = Some doc ->
  forallb well_formed_param (fn_params func) = true ->
  let T := tool_def_tree (mkTool (fn_name func) (PyStr.strip doc)
                                 (map param_of (fn_params func))) in
  Store.register_tool func s =
    (Ok func,
     mkState (dict_set (fn_name func) func (hooks s)) (descriptions s)
       (alter (obj_setitem (fn_name func) (fst (alloc T (objects s))))
              (descriptions s) (snd (alloc T (objects s))))).
Proof.
  intros Hdoc Hps T. unfold Store.register_tool, getdoc_strip, bind.
  rewrite Hdoc. unfold ret at 1.
  rewrite (build_params_well_formed _ [] s Hps).
  cbv beta iota delta [get put ret bind app]. fold T.
  by destruct (alloc T (objects s)).
Qed.

Lemma store_register_tool_fails func s :
  fn_doc func = None \/ forallb well_formed_param (fn_params func) = false ->
  exists e, Store.register_tool func s = (Raise e, s).
Proof.
  intros H. unfold Store.register_tool, getdoc_strip, bind.
  destruct (fn_doc func) as [doc|] eqn:Hdoc; [|eauto].
  destruct H as [|Hps]; [done|]. unfold ret at 1.
  destruct (build_params_malformed (fn_params func) [] s Hps) as [msg ->].
  eauto.
Qed.

Lemma represents_initial : represents initial empty_registry.
Proof.
  split; [done|]. exists [0]. split.
  - apply (ta_dict _ 0 [] [] []); try done; constructor.
  - apply NoDup_singleton.
Qed.

(** The heap state follows the registry through a registration. *)
Lemma represents_register func s g :
  represents s g ->
  represents (snd (Store.register_tool func s)) (snd (register_tool func g)).
Proof.
  intros [Hhooks (F0 & Htree & Hnd0)].
  destruct (fn_doc func) as [doc|] eqn:Hdoc; cycle 1.
  { rewrite (register_tool_undocumented func g Hdoc).
    destruct (store_register_tool_fails func s) as [e ->]; [auto|].
    by split; eauto. }
  destruct (forallb well_formed_param (fn_params func)) eqn:Hps; cycle 1.
  { destruct (register_tool_malformed func g Hps) as (e & -> & _).
    destruct (store_register_tool_fails func s) as [e' ->]; [auto|].
    by split; eauto. }
  rewrite (register_tool_well_formed func doc g Hdoc Hps).
  rewrite (store_register_tool_well_formed func doc s Hdoc Hps).
  set (d := mkTool (fn_name func) (PyStr.strip doc) (map param_of (fn_params func))).
  unfold represents.
  cbn [snd _TOOL_HOOKS _TOOL_DESCRIPTIONS hooks descriptions objects].
  split; [by rewrite Hhooks|].
  destruct (alloc_built 4 (tool_def_tree d) (objects s))
    as (v & h1 & Halloc & Fv & Hv & HndV & HfrV & Hlen & Hframe);
    [apply depth_tool_def_tree | apply wf_tool_def_tree |].
  rewrite Halloc. cbn [fst snd].
  rewrite descriptions_tree_set.
  unfold descriptions_tree in Htree.
  inversion Htree as [| |? ? ? ?|root kvs kts F Hroot Hkeys Hndk Hts]; subst.
  apply NoDup_cons in Hnd0 as [HrootF HndF].
  assert (forall l, l ∈ F -> l < length (objects s)) as HFlt
    by (intros l Hl; by eapply (proj2 (tree_at_allocated (objects s)))).
  assert (descriptions s < length (objects s)) as Hrootlt
    by (by eapply lookup_lt_Some).
  assert (trees_at h1
            (map snd (map (fun kd => (fst kd, tool_def_tree (snd kd)))
                          (_TOOL_DESCRIPTIONS g)))
            (map snd kvs) F) as Hts1.
  { apply (proj2 (tree_at_frame (objects s)) _ _ _ Hts).
    intros l Hl. apply Hframe. auto. }
  destruct (trees_at_dict_set h1 (fn_name func) _ _ _ Hv HndV _ _ _ Hkeys Hts1 HndF)
    as (F' & Hts' & Hnd' & Hsub & Hkeys').
  { intros l Hl HlV. apply HFlt in Hl. apply HfrV in HlV. lia. }
  assert (descriptions s ∉ F') as HrootF'.
  { intros [Hin|Hin]%Hsub; [done|]. apply HfrV in Hin. lia. }
  exists (descriptions s :: F'). split.
  - econstructor.
    + rewrite list_lookup_alter_eq, Hframe, Hroot by done. done.
    + done.
    + by apply dict_keys_NoDup_set.
    + apply (proj2 (tree_at_frame h1) _ _ _ Hts').
      intros l Hl. apply list_lookup_alter_ne. by intros <-.
  - by apply NoDup_cons.
Qed.

Lemma represents_load fs : represents (load fs) (registered fs).
Proof.
  unfold load, registered.
  assert (forall s g, represents s g ->
            represents (fold_left (fun s f => snd (Store.register_tool f s)) fs s)
                       (fold_left (fun g f => snd (register_tool f g)) fs g))
    as H.
  { induction fs as [|f fs IH]; intros s g Hrep; simpl; [done|].
    apply IH. by apply represents_register. }
  apply H, represents_initial.
Qed.
Lemma registered_same_keys fs : same_keys (registered fs).
Proof.
  unfold registered.
  assert (forall g, same_keys g ->
            same_keys (fold_left (fun g f => snd (register_tool f g)) fs g)) as H.
  { induction fs as [|f fs IH]; intros g Hg; simpl; [done|].
    apply IH. apply (exec_same_keys 0 (OpRegister f) g Hg). }
  by apply H.
Qed.

Lemma represents_keys_NoDup s g :
  represents s g -> NoDup (dict_keys (_TOOL_DESCRIPTIONS g)).
Proof.
  intros [_ (F & Htree & _)]. unfold descriptions_tree in Htree.
  inversion Htree as [| |? ? ? ?|root kvs kts F' Hroot Hkeys Hndk Hts]; subst.
  rewrite Hkeys, map_map in Hndk. done.
Qed.

(** Writes outside the objects that existed keep the registry. *)
Lemma represents_frame s g h'' :
  represents s g ->
  (forall l, l < length (objects s) -> h'' !! l = objects s !! l) ->
  represents (mkState (hooks s) (descriptions s) h'') g.
Proof.
  intros [Hhooks (F & Htree & Hnd)] Hframe. split; [done|].
  exists F. split; [|done]. simpl.
  apply (proj1 (tree_at_frame (objects s)) _ _ _ Htree).
  intros l Hl. apply Hframe.
  by eapply (proj1 (tree_at_allocated (objects s))).
Qed.

(** ** The catalog on the heap *)

Lemma get_tools_represents s g fuel :
  represents s g -> 5 <= fuel ->
  exists v h',
    Store.get_tools fuel s = (Ok v, mkState (hooks s) (descriptions s) h') /\
    built (objects s) (descriptions_tree (_TOOL_DESCRIPTIONS g)) v h'.
Proof.
  intros [Hhooks (F & Htree & Hnd)] Hfuel.
  destruct (proj1 (deepcopy_tree (objects s)) _ _ _ Htree fuel ∅ (objects s))
    as (v & m' & h' & F' & Hcopy & Hv & Hnd' & Hfresh & Hlen & Hframe & _);
    [|done|intros; apply lookup_empty|done|].
  { pose proof (depth_descriptions_tree (_TOOL_DESCRIPTIONS g)). lia. }
  exists v, h'. split.
  - unfold Store.get_tools, bind, get. by rewrite Hcopy.
  - by exists F'.
Qed.
End StoreFacts.

(** C6. [get_tools] on the heap, after any sequence of registrations and
    with recursion depth for the five levels of the table: it returns a
    structure whose value is the description table, with one entry per
    key of [_TOOL_HOOKS] and no key twice, made only of objects that did
    not exist before the call. Whatever is then written into the objects
    of that structure, or into new objects, every object that existed
    before the call is as it was, the state still holds the same
    registry, and a second call returns a structure with the same
    value. *)
Theorem get_tools_independent_copy (fs : list pyfunc) (fuel : nat) :
  (5 <= fuel)%nat ->
  let s := Store.load fs in
  let T := Store.descriptions_tree (_TOOL_DESCRIPTIONS (registered fs)) in
  exists v h' F,
    Store.get_tools fuel s
      = (Ok v, Store.mkState (Store.hooks s) (Store.descriptions s) h') /\
    Store.tree_at h' T v F /\ NoDup F /\
    dict_keys (_TOOL_DESCRIPTIONS (registered fs)) = dict_keys (Store.hooks s) /\
    NoDup (dict_keys (Store.hooks s)) /\
    (forall l, l ∈ F -> (length (Store.objects s) <= l)%nat) /\
    forall h'',
      (forall l, (l < length h')%nat -> l ∉ F -> h'' !! l = h' !! l) ->
      let s'' := Store.mkState (Store.hooks s) (Store.descriptions s) h'' in
      (forall l, (l < length (Store.objects s))%nat ->
                 h'' !! l = Store.objects s !! l) /\
      Store.represents s'' (registered fs) /\
      exists v2 h2 F2,
        Store.get_tools fuel s''
          = (Ok v2, Store.mkState (Store.hooks s) (Store.descriptions s) h2) /\
        Store.tree_at h2 T v2 F2.
Proof.
  intros Hfuel s T.
  pose proof (represents_load fs) as Hrep. fold s in Hrep.
  destruct (get_tools_represents s _ fuel Hrep Hfuel)
    as (v & h' & Hget & F & Hv & Hnd & Hfresh & Hlen & Hframe).
  assert (dict_keys (_TOOL_DESCRIPTIONS (registered fs)) = dict_keys (Store.hooks s))
    as Hkeys.
  { destruct Hrep as [-> _]. symmetry. apply registered_same_keys. }
  exists v, h', F. split_and!; try done.
  - rewrite <- Hkeys. by eapply represents_keys_NoDup.
  - intros h'' Hh'' s''.
    assert (forall l, (l < length (Store.objects s))%nat ->
                      h'' !! l = Store.objects s !! l) as Hold.
    { intros l Hl. rewrite Hh''; [by apply Hframe | lia |].
      intros Hin%Hfresh. lia. }
    assert (Store.represents s'' (registered fs)) as Hrep''
      by (by apply represents_frame).
    split_and!; [done | done |].
    destruct (get_tools_represents s'' _ fuel Hrep'' Hfuel)
      as (v2 & h2 & Hget2 & F2 & Hv2 & _).
    by exists v2, h2, F2.
Qed.

Lemma get_tools_independent_copy_witness :
  exists v h',
    Store.get_tools 5 (Store.load [lookup_v1; lookup_v2])
    = (Ok v, Store.mkState [("lookup", lookup_v2)] 0%nat h').
Proof.
  destruct (get_tools_independent_copy [lookup_v1; lookup_v2] 5)
    as (v & h' & F & Hget & _); [lia|].
  exists v, h'. exact Hget.
Defined.

(** ** Evaluations on concrete inputs *)

Example strip_docstring :
  PyStr.strip (PyStr.newline +:+ "    Generate MD5.  " +:+ PyStr.newline +:+ "    ")
  = "Generate MD5.".
Proof. reflexivity. Qed.

(** [Foo] followed by U+3000 and U+00A0, which are whitespace. *)
Example strip_unicode_whitespace :
  PyStr.strip ("Foo" +:+ utf8 [227; 128; 128; 194; 160]) = "Foo".
Proof. vm_compute. reflexivity. Qed.

(** U+00A0 is not printable, [e] with an acute accent is. *)
Example repr_escapes_non_printable :
  PyStr.repr_str ("a" +:+ utf8 [194; 160; 195; 169])
  = "'a" +:+ String PyStr.backslash "xa0" +:+ utf8 [195; 169] +:+ "'".
Proof. vm_compute. reflexivity. Qed.

(** The surrogates U+D800 and U+DC00 after [ab]. *)
Example encode_surrogates :
  PyStr.encode ("ab" +:+ utf8 [237; 160; 128; 237; 176; 128])
  = inl (mkExn "UnicodeEncodeError"
           "'utf-8' codec can't encode characters in position 2-3: surrogates not allowed").
Proof. vm_compute. reflexivity. Qed.

Example py_str_of_tuple :
  py_str 1 (VTuple [VStr "it's"; VBool true; VInt (-3); VNone])
  = inr ("(" +:+ String PyStr.dquote
                   ("it's" +:+ String PyStr.dquote ", True, -3, None)")).
Proof. vm_compute. reflexivity. Qed.

(** A tuple in a tuple needs two levels. *)
Example py_str_out_of_depth :
  py_str 1 (VTuple [VTuple []]) = inl RecursionError /\
  py_str 2 (VTuple [VTuple []]) = inr "((),)".
Proof. split; vm_compute; reflexivity. Qed.

Example md5_of_empty :
  MD5.hexdigest (PyStr.bytes "") = "d41d8cd98f00b204e9800998ecf8427e".
Proof. vm_compute. reflexivity. Qed.

Example md5_of_two_blocks :
  MD5.hexdigest (PyStr.bytes
    "12345678901234567890123456789012345678901234567890123456789012345678901234567890")
  = "57edf4a22be3c955ac49da2e2107b67a".
Proof. vm_compute. reflexivity. Qed.

Example generate_md5_rejects_other_keywords :
  generate_md5_call (fun _ => "") [("text", VStr "abc")]
  = Raised "" (TypeError "generate_md5() got an unexpected keyword argument 'text'").
Proof. reflexivity. Qed.

Example register_strips_wide_space :
  snd (register_tool wide_space_doc empty_registry)
  = mkRegistry [("wide_space_doc", wide_space_doc)]
               [("wide_space_doc", mkTool "wide_space_doc" "Foo" [])].
Proof. vm_compute. reflexivity. Qed.

Example register_bare_annotation :
  fst (register_tool bare_annotation empty_registry)
  = Raise (TypeError "Annotation type for `b` must be typing.Annotated").
Proof. reflexivity. Qed.

(** The memo table keeps sharing: both items of the copy are the same
    new object. *)
Example deepcopy_keeps_sharing :
  fst <$> Store.deepcopy 3 (Store.SRef 0) ∅
    [Store.OList [Store.SRef 1; Store.SRef 1]; Store.OList [Store.SStr "x"]]
  = Some (Store.SRef 2, {[0%nat := 2%nat; 1%nat := 3%nat]}).
Proof. vm_compute. reflexivity. Qed.

(** A list that holds itself is copied to a list that holds itself. *)
Example deepcopy_of_cycle :
  snd <$> Store.deepcopy 2 (Store.SRef 0) ∅ [Store.OList [Store.SRef 0]]
  = Some [Store.OList [Store.SRef 0]; Store.OList [Store.SRef 1]].
Proof. vm_compute. reflexivity. Qed.

(** The catalog of one registered tool, and a caller emptying the
    returned dict: the four objects of the live table are as before. *)
Example get_tools_then_mutate :
  let s := Store.load [lookup_v1] in
  let s' := Store.mutate 4 (Store.ODict []) (snd (Store.get_tools 5 s)) in
  fst (Store.get_tools 5 s) = Ok (Store.SRef 4) /\
  length (Store.objects s) = 4%nat /\
  Store.objects s' !! 4%nat = Some (Store.ODict []) /\
  take 4 (Store.objects s') = Store.objects s /\
  fst (Store.get_tools 5 s') = Ok (Store.SRef 8).
Proof. split_and!; vm_compute; reflexivity. Qed.

(** Four levels of recursion are not enough for the table. *)
Example get_tools_out_of_depth :
  fst (Store.get_tools 4 (Store.load [lookup_v1]))
  = Raise (mkExn "RecursionError" "maximum recursion depth exceeded").
Proof. vm_compute. reflexivity. Qed.

(** ** Further properties of registration and dispatch *)

Lemma entries_of_params ps :
  forallb well_formed_param ps = true -> Forall2 entry_of ps (map param_of ps).
Proof.
  induction ps as [|[name a] ps IH]; simpl; intros H; [constructor|].
  apply andb_prop in H as [Hp Hps]. constructor; [|by apply IH].
  unfold well_formed_param, param_of, entry_of in *. simpl in *.
  destruct a as [|v|t m ms]; try done.
  destruct m as [| | | |vs|]; try done.
  destruct vs as [|[| | |d| |] [|[|r| | | |] [|? ?]]]; try done.
  simpl. eauto.
Qed.

(** X1. A function with a docstring and well-formed parameters is
    registered and returned as it is; its entry holds its name, the
    stripped docstring and one parameter entry per declared parameter, in
    declaration order, with the declared description and required flag and
    the type tag ["Annotated"] whatever the declared type. *)
Theorem register_tool_entries func doc g :
  fn_doc func = Some doc ->
  forallb well_formed_param (fn_params func) = true ->
  exists d,
    register_tool func g =
      (Ok func, mkRegistry (dict_set (fn_name func) func (_TOOL_HOOKS g))
                           (dict_set (fn_name func) d (_TOOL_DESCRIPTIONS g))) /\
    td_name d = fn_name func /\
    td_description d = PyStr.strip doc /\
    Forall2 entry_of (fn_params func) (td_params d).
Proof.
  intros Hdoc Hps. eexists. split; [by apply register_tool_well_formed|].
  simpl. split_and!; [done | done |]. by apply entries_of_params.
Qed.

Lemma register_tool_entries_witness :
  exists d,
    fst (register_tool lookup_v2 empty_registry) = Ok lookup_v2 /\
    td_description d = "Second version." /\
    Forall2 entry_of (fn_params lookup_v2) (td_params d).
Proof.
  destruct (register_tool_entries lookup_v2 "Second version." empty_registry)
    as (d & Hreg & _ & Hdesc & Hps); [reflexivity | reflexivity |].
  exists d. split_and!; [by rewrite Hreg | exact Hdesc | exact Hps].
Defined.

(** X2. Whether it returns or raises, [register_tool] leaves the entries
    of every other name in both tables as they were. *)
Theorem register_tool_other_names func g k :
  k <> fn_name func ->
  dict_get k (_TOOL_HOOKS (snd (register_tool func g)))
    = dict_get k (_TOOL_HOOKS g) /\
  dict_get k (_TOOL_DESCRIPTIONS (snd (register_tool func g)))
    = dict_get k (_TOOL_DESCRIPTIONS g).
Proof.
  intros Hk.
  destruct (register_tool_cases func g) as [[e ->]|[d ->]]; simpl; [done|].
  split; apply dict_get_set_ne; congruence.
Qed.

Lemma register_tool_other_names_witness :
  let g := snd (register_tool faulty empty_registry) in
  dict_get "faulty" (_TOOL_HOOKS (snd (register_tool lookup_v1 g))) = Some faulty.
Proof.
  intros g.
  rewrite (proj1 (register_tool_other_names lookup_v1 g "faulty" ltac:(discriminate))).
  reflexivity.
Defined.



(** X4. Registering the same function a second time changes nothing:
    the registry after two registrations is the registry after one. *)
Theorem register_tool_idempotent func g :
  snd (register_tool func (snd (register_tool func g)))
  = snd (register_tool func g).
Proof.
  destruct (fn_doc func) as [doc|] eqn:Hdoc.
  - destruct (forallb well_formed_param (fn_params func)) eqn:Hps.
    + rewrite !(register_tool_well_formed func doc _ Hdoc Hps). simpl.
      by rewrite !dict_set_set.
    + destruct (register_tool_malformed func g Hps) as (e & He & _).
      rewrite He. simpl. by rewrite He.
  - rewrite (register_tool_undocumented func g Hdoc). simpl.
    by rewrite (register_tool_undocumented func g Hdoc).
Qed.

Lemma dict_contains_set {V} (d : dict V) k k' (v : V) :
  dict_contains k (dict_set k' v d) = String.eqb k k' || dict_contains k d.
Proof.
  induction d as [|[k0 v0] d IH]; simpl.
  - by destruct (String.eqb k k').
  - destruct (String.eqb k' k0) eqn:E; simpl.
    + apply String.eqb_eq in E. subst k0. by destruct (String.eqb k k').
    + rewrite IH. destruct (String.eqb k k0), (String.eqb k k'); done.
Qed.

Lemma exec_keeps_tool depth o g k :
  dict_contains k (_TOOL_HOOKS g) = true ->
  dict_contains k (_TOOL_HOOKS (exec depth o g)) = true.
Proof.
  intros H. destruct o as [func|n ps|]; simpl.
  - destruct (register_tool_cases func g) as [[e ->]|[d ->]]; simpl; [done|].
    rewrite dict_contains_set, H. apply orb_true_r.
  - by rewrite dispatch_tool_state.
  - done.
Qed.

(** X5. No operation removes a tool: a name that is a key of
    [_TOOL_HOOKS] is still one after any sequence of calls of
    [register_tool], [dispatch_tool] and [get_tools]. *)
Theorem exec_all_keeps_tools depth os g k :
  dict_contains k (_TOOL_HOOKS g) = true ->
  dict_contains k (_TOOL_HOOKS (exec_all depth os g)) = true.
Proof.
  revert g. induction os as [|o os IH]; intros g H; simpl; [done|].
  apply IH. by apply exec_keeps_tool.
Qed.

Lemma exec_all_keeps_tools_witness :
  dict_contains "lookup"
    (_TOOL_HOOKS (exec_all 1000
                    [OpRegister faulty; OpDispatch "lookup" []; OpGetTools;
                     OpDispatch "huge_int" []; OpRegister huge_int;
                     OpDispatch "huge_int" []; OpRegister undocumented]
                    (snd (register_tool lookup_v1 empty_registry)))) = true.
Proof. apply exec_all_keeps_tools. reflexivity. Defined.

Lemma build_params_app {St} good ps acc (s : St) :
  forallb well_formed_param good = true ->
  build_params (good ++ ps) acc s = build_params ps (acc ++ map param_of good) s.
Proof.
  revert acc. induction good as [|[name a] good IH]; intros acc H; simpl in *.
  - by rewrite app_nil_r.
  - apply andb_prop in H as [Hp Hgood]. unfold bind at 1.
    rewrite (param_entry_well_formed name a s Hp), IH by done.
    by rewrite <- app_assoc.
Qed.

(** X6. The parameters are examined in declaration order and the first
    malformed one decides the outcome: registration raises the
    [TypeError] that the loop body raises for that parameter, whatever
    follows it, and the registry is unchanged. *)
Theorem register_tool_first_malformed func doc g good name a rest :
  fn_doc func = Some doc ->
  fn_params func = good ++ (name, a) :: rest ->
  forallb well_formed_param good = true ->
  well_formed_param (name, a) = false ->
  exists msg,
    param_entry name a g = (Raise (TypeError msg), g) /\
    register_tool func g = (Raise (TypeError msg), g).
Proof.
  intros Hdoc Hps Hgood Hbad.
  destruct (param_entry_malformed name a g Hbad) as [msg Hmsg].
  exists msg. split; [done|].
  unfold register_tool, getdoc_strip, bind. rewrite Hdoc. unfold ret at 1.
  rewrite Hps, build_params_app by done. simpl.
  unfold bind. by rewrite Hmsg.
Qed.

Lemma register_tool_first_malformed_witness :
  register_tool bare_annotation empty_registry
  = (Raise (TypeError "Annotation type for `b` must be typing.Annotated"),
     empty_registry).
Proof.
  destruct (register_tool_first_malformed bare_annotation
              "Second parameter lacks metadata." empty_registry
              [("a", str_param "first")] "b"
              (AnnObj (VType (PyClass "builtins" "str"))) [])
    as (msg & Hmsg & Hreg); [reflexivity..|].
  rewrite Hreg. f_equal. f_equal. by injection Hmsg as <-.
Defined.

(** X7. Which error each defect of a parameter gives. No annotation:
    "missing type annotation". Any annotation that is not [Annotated],
    a bare type or a generic alias included: "must be typing.Annotated".
    First metadata not a tuple of two: "Metadata ... must be a tuple".
    Description not a string: "Description ... must be a string", also
    when the required flag is wrong too. Description a string and required
    flag not a bool: "Required ... must be a bool". Metadata after the
    first is ignored. *)
Theorem param_entry_errors name (g : registry) :
  param_entry name AnnEmpty g
    = (Raise (TypeError ("Parameter " +:+ bt name +:+ " missing type annotation")), g) /\
  (forall v, param_entry name (AnnObj v) g
    = (Raise (TypeError ("Annotation type for " +:+ bt name
                         +:+ " must be typing.Annotated")), g)) /\
  (forall t m ms, (forall d r, m <> VTuple [d; r]) ->
     param_entry name (AnnAnnotated t m ms) g
     = (Raise (TypeError ("Metadata for " +:+ bt name
          +:+ " must be a tuple with two elements (description, required)")), g)) /\
  (forall t d r ms, (forall x, d <> VStr x) ->
     param_entry name (AnnAnnotated t (VTuple [d; r]) ms) g
     = (Raise (TypeError ("Description for " +:+ bt name
                          +:+ " must be a string")), g)) /\
  (forall t x r ms, (forall b, r <> VBool b) ->
     param_entry name (AnnAnnotated t (VTuple [VStr x; r]) ms) g
     = (Raise (TypeError ("Required for " +:+ bt name +:+ " must be a bool")), g)) /\
  (forall t x b ms,
     param_entry name (AnnAnnotated t (VTuple [VStr x; VBool b]) ms) g
     = (Ok (mkParam name x "Annotated" b), g)).
Proof.
  split_and!.
  - done.
  - intros v. by destruct v as [| | | | |[m n|o args]].
  - intros t m ms Hm. destruct m as [| | | |vs|]; try done.
    destruct vs as [|d [|r [|? ?]]]; try done. by destruct (Hm d r).
  - intros t d r ms Hd. destruct d; try done. by destruct (Hd s).
  - intros t x r ms Hr. destruct r; try done. by destruct (Hr b).
  - done.
Qed.

Lemma param_entry_errors_witness :
  param_entry "p" (AnnAnnotated (PyClass "builtins" "str")
                     (VTuple [VInt 1; VStr "yes"]) []) empty_registry
  = (Raise (TypeError "Description for `p` must be a string"), empty_registry).
Proof.
  apply (proj1 (proj2 (proj2 (proj2 (param_entry_errors "p" empty_registry))))).
  discriminate.
Defined.

Lemma Forall_dict_set {V} (P : string * V -> Prop) (d : dict V) k v :
  Forall P d -> P (k, v) -> Forall P (dict_set k v d).
Proof.
  intros Hd Hkv. induction d as [|[k0 v0] d IH]; simpl.
  - by constructor.
  - apply Forall_cons in Hd as [H0 Hd].
    destruct (String.eqb k k0); constructor; auto.
Qed.

Lemma exec_names_match depth o g :
  names_match g -> names_match (exec depth o g).
Proof.
  intros [Hh Hd]. destruct o as [func|n ps|]; simpl.
  - destruct (fn_doc func) as [doc|] eqn:Hdoc; cycle 1.
    { by rewrite (register_tool_undocumented func g Hdoc). }
    destruct (forallb well_formed_param (fn_params func)) eqn:Hps; cycle 1.
    { by destruct (register_tool_malformed func g Hps) as (e & -> & _). }
    rewrite (register_tool_well_formed func doc g Hdoc Hps).
    split; simpl; by apply Forall_dict_set.
  - by rewrite dispatch_tool_state.
  - done.
Qed.

Lemma exec_keys_NoDup depth o g :
  NoDup (dict_keys (_TOOL_HOOKS g)) ->
  NoDup (dict_keys (_TOOL_HOOKS (exec depth o g))).
Proof.
  intros H. destruct o as [func|n ps|]; simpl.
  - destruct (register_tool_cases func g) as [[e ->]|[d ->]]; simpl; [done|].
    by apply dict_keys_NoDup_set.
  - by rewrite dispatch_tool_state.
  - done.
Qed.

(** X8. In every registry reached from the empty one by calls of
    [register_tool], [dispatch_tool] and [get_tools], the two tables have
    the same keys in the same order, no key occurs twice, every function
    is stored under its own [__name__] and every entry under its own
    ["name"]. *)
Theorem reachable_registry_invariant depth os :
  let g := exec_all depth os empty_registry in
  same_keys g /\ NoDup (dict_keys (_TOOL_HOOKS g)) /\ names_match g.
Proof.
  assert (forall g, same_keys g /\ NoDup (dict_keys (_TOOL_HOOKS g)) /\ names_match g ->
            same_keys (exec_all depth os g) /\
            NoDup (dict_keys (_TOOL_HOOKS (exec_all depth os g))) /\
            names_match (exec_all depth os g)) as H.
  { induction os as [|o os IH]; intros g (H1 & H2 & H3); simpl; [done|].
    apply IH. split_and!.
    - by apply exec_same_keys.
    - by apply exec_keys_NoDup.
    - by apply exec_names_match. }
  apply H. split_and!; [done | constructor | by split].
Qed.

(** ** The digest of [generate_md5] *)

Lemma le_bytes_length n x : length (MD5.le_bytes n x) = n.
Proof. revert x. induction n as [|n IH]; intros x; simpl; [done | by rewrite IH]. Qed.

Lemma le_bytes_range n x :
  Forall (fun b => 0 <= b < 256) (MD5.le_bytes n x).
Proof.
  revert x. induction n as [|n IH]; intros x; simpl; constructor; [|apply IH].
  change 255 with (Z.ones 8). rewrite Z.land_ones by lia.
  apply Z.mod_pos_bound. lia.
Qed.

Lemma digest_bytes msg :
  length (MD5.digest msg) = 16%nat /\
  Forall (fun b => 0 <= b < 256) (MD5.digest msg).
Proof.
  unfold MD5.digest.
  destruct (MD5.blocks _ _ _) as [[[a b] c] d].
  rewrite !length_app, !le_bytes_length. split; [done|].
  rewrite !Forall_app. split_and!; apply le_bytes_range.
Qed.

Lemma hex_digit_is_hex n : (n < 16)%N -> is_hex_char (PyStr.hex_digit n) = true.
Proof.
  intros H.
  assert (forallb (fun k => is_hex_char (PyStr.hex_digit (N.of_nat k))) (seq 0 16)
          = true) as Hall by reflexivity.
  rewrite forallb_forall in Hall.
  rewrite <- (N2Nat.id n). apply Hall. apply in_seq. lia.
Qed.

Lemma hex_byte_app n acc :
  PyStr.hex_byte n +:+ acc
  = String (PyStr.hex_digit (n / 16)) (String (PyStr.hex_digit (n mod 16)) acc).
Proof. reflexivity. Qed.

Lemma hex_of_bytes bs :
  Forall (fun b => 0 <= b < 256) bs ->
  String.length (fold_right (fun b acc => PyStr.hex_byte (Z.to_N b) +:+ acc) "" bs)
    = (2 * length bs)%nat /\
  forallb is_hex_char
    (list_ascii_of_string
       (fold_right (fun b acc => PyStr.hex_byte (Z.to_N b) +:+ acc) "" bs)) = true.
Proof.
  induction 1 as [|b bs Hb Hbs [IHlen IHhex]]; [done|].
  cbn [fold_right]. rewrite hex_byte_app.
  cbn [String.length list_ascii_of_string forallb length]. split.
  - rewrite IHlen. lia.
  - rewrite IHhex, !hex_digit_is_hex; [done | |].
    + apply N.mod_lt. done.
    + apply N.Div0.div_lt_upper_bound. lia.
Qed.

(** X9. For every string that holds no surrogate, [generate_md5]
    returns a string of exactly 32 characters, each a digit or a letter
    from [a] to [f]. *)
Theorem generate_md5_digest_shape frames input_string :
  PyStr.surrogates 0 (PyStr.chars input_string) = None ->
  exists h,
    generate_md5_call frames [("input_string", VStr input_string)]
      = Returned (VStr h) /\
    String.length h = 32%nat /\
    forallb is_hex_char (list_ascii_of_string h) = true.
Proof.
  intros Hs. exists (MD5.hexdigest (PyStr.bytes input_string)). split.
  - unfold generate_md5_call.
    change (bind_kwarg "generate_md5" "input_string"
              [("input_string", VStr input_string)])
      with (@inr exn pyval (VStr input_string)).
    cbv beta iota. unfold PyStr.encode. by rewrite Hs.
  - destruct (digest_bytes (PyStr.bytes input_string)) as [Hlen Hrange].
    destruct (hex_of_bytes _ Hrange) as [H1 H2].
    split; [|exact H2]. unfold MD5.hexdigest. by rewrite H1, Hlen.
Qed.

Lemma generate_md5_digest_shape_witness :
  exists h,
    generate_md5_call (fun _ => "") [("input_string", VStr "abc")]
      = Returned (VStr h) /\
    String.length h = 32%nat.
Proof.
  destruct (generate_md5_digest_shape (fun _ => "") "abc")
    as (h & Hcall & Hlen & _); [vm_compute; reflexivity|].
  exists h. split; [exact Hcall | exact Hlen].
Defined.

(** X10. Called with any keyword arguments, [generate_md5] returns the
    digest of the bytes of the string passed as [input_string], or raises
    a [TypeError] (an argument with another name, a missing argument, an
    [input_string] that is not a string), or raises the
    [UnicodeEncodeError] of [encode] when the string holds a surrogate.
    It raises nothing else. *)
Theorem generate_md5_call_outcomes frames kwargs :
  (exists s,
     dict_get "input_string" kwargs = Some (VStr s) /\
     PyStr.surrogates 0 (PyStr.chars s) = None /\
     generate_md5_call frames kwargs
       = Returned (VStr (MD5.hexdigest (PyStr.bytes s)))) \/
  (exists fr msg, generate_md5_call frames kwargs = Raised fr (TypeError msg)) \/
  (exists s msg,
     dict_get "input_string" kwargs = Some (VStr s) /\
     PyStr.surrogates 0 (PyStr.chars s) <> None /\
     generate_md5_call frames kwargs
       = Raised (frames 116%nat) (mkExn "UnicodeEncodeError" msg)).
Proof.
  unfold generate_md5_call, bind_kwarg.
  destruct (List.filter _ kwargs) as [|[k v] rest]; [|right; left; eauto].
  destruct (dict_get "input_string" kwargs) as [v|]; [|right; left; eauto].
  destruct v; try (right; left; by eauto).
  unfold PyStr.encode.
  destruct (PyStr.surrogates 0 (PyStr.chars s)) as [[[start stop] cp]|] eqn:Hs.
  - right. right. eexists _, _. split_and!; [done | by rewrite Hs | reflexivity].
  - left. eauto.
Qed.

(** X11. Dispatching ["generate_md5"] after the module is loaded returns
    a string for every argument mapping and leaves the registry as it
    was: the digest of the string passed as [input_string], or the
    formatted traceback of a [TypeError], or that of the
    [UnicodeEncodeError] raised for a string that holds a surrogate. *)
Theorem dispatch_generate_md5_outcomes depth frames weather search ip tool_params :
  let g := module_registry frames weather search ip in
  exists out,
    dispatch_tool depth "generate_md5" tool_params g = (Ok out, g) /\
    ((exists s, dict_get "input_string" tool_params = Some (VStr s) /\
                PyStr.surrogates 0 (PyStr.chars s) = None /\
                out = MD5.hexdigest (PyStr.bytes s)) \/
     (exists fr msg, out = format_exc fr (TypeError msg)) \/
     (exists s msg, dict_get "input_string" tool_params = Some (VStr s) /\
                    PyStr.surrogates 0 (PyStr.chars s) <> None /\
                    out = format_exc (frames 116%nat)
                            (mkExn "UnicodeEncodeError" msg))).
Proof.
  intros g.
  rewrite (dispatch_tool_found _ _ _ _ (generate_md5 frames)) by reflexivity.
  cbn [fn_call generate_md5]. unfold generate_md5_call, bind_kwarg.
  destruct (List.filter _ tool_params) as [|[k v] rest];
    [|eexists; split; [done|]; right; left; eauto].
  destruct (dict_get "input_string" tool_params) as [v|];
    [|eexists; split; [done|]; right; left; eauto].
  destruct v; try (eexists; split; [done|]; right; left; by eauto).
  unfold PyStr.encode.
  destruct (PyStr.surrogates 0 (PyStr.chars s)) as [[[start stop] cp]|] eqn:Hs.
  - eexists. split; [done|]. right. right.
    eexists _, _. split_and!; [done | by rewrite Hs | reflexivity].
  - eexists. split; [done|]. left. eauto.
Qed.

(** ** The adapters *)




(** X13. When the service answers and [current_condition] is a list
    whose first element has the five fields, [get_weather] returns the
    [repr] of exactly those five values under their names: every other
    field of the answer and every later element of the list is left
    out. *)
Theorem get_weather_projection frames requests_get city_name resp j a b xs :
  requests_get ("https://wttr.in/" +:+ city_name +:+ "?format=j1") = inr resp ->
  raise_for_status resp = None ->
  json_body resp = inr j ->
  getitem_key j "current_condition" = inr a ->
  getitem_0 a = inr b ->
  Forall2 (fun f x => getitem_key b f = inr x)
    ["temp_C"; "FeelsLikeC"; "humidity"; "weatherDesc"; "observation_time"] xs ->
  get_weather_body frames requests_get [("city_name", VStr city_name)]
  = Returned (VStr (json_repr
      (JDict [("current_condition",
               JDict (combine ["temp_C"; "FeelsLikeC"; "humidity"; "weatherDesc";
                               "observation_time"] xs))]))).
Proof.
  intros Hget Hstatus Hjson Ha Hb Hxs.
  unfold get_weather_body.
  change (bind_kwarg "get_weather" "city_name" [("city_name", VStr city_name)])
    with (@inr exn pyval (VStr city_name)).
  cbv beta iota zeta. unfold fetch_json. rewrite Hget, Hstatus, Hjson.
  do 5 (apply Forall2_cons_inv_l in Hxs as (? & ? & ? & Hxs & ->)).
  apply Forall2_nil_inv_l in Hxs as ->.
  unfold key_selection. cbn [project select_fields].
  rewrite Ha. cbv beta iota. rewrite Hb. cbv beta iota.
  repeat match goal with
         | H : getitem_key b _ = inr _ |- _ => rewrite H; clear H; cbv beta iota
         end.
  reflexivity.
Qed.

Lemma get_weather_projection_witness :
  get_weather_body (fun _ => "") sample_requests_get [("city_name", VStr "beijing")]
  = Returned (VStr (json_repr
      (JDict [("current_condition",
               JDict [("temp_C", JStr "22"); ("FeelsLikeC", JStr "21");
                      ("humidity", JStr "40");
                      ("weatherDesc", JList [JDict [("value", JStr "Sunny")]]);
                      ("observation_time", JStr "08:00 AM")])]))).
Proof.
  apply (get_weather_projection (fun _ => "") sample_requests_get "beijing"
           sample_response sample_answer
           (JList [sample_condition; JDict []]) sample_condition
           [JStr "22"; JStr "21"; JStr "40";
            JList [JDict [("value", JStr "Sunny")]]; JStr "08:00 AM"]);
    [reflexivity.. | repeat constructor].
Defined.

(** X14. [query_ip] asks for a url without a scheme. So with a
    [requests.get] that refuses every url that does not start with
    [http://] or [https://] by raising an [Exception], [query_ip] returns
    "Error encountered while querying IP address: ..." for every
    address, and never the answer of the service. *)
Theorem query_ip_never_reaches_service frames requests_get :
  (forall url, has_http_scheme url = false ->
     exists f, requests_get url = inl f /\ fail_is_Exception f = true) ->
  forall ip_address,
    exists msg,
      query_ip_body frames requests_get [("ip_address", VStr ip_address)]
      = Returned (VStr ("Error encountered while querying IP address: "
                        +:+ msg)).
Proof.
  intros Hget ip_address.
  destruct (Hget ("worker-tight-flower-09d8.cliuxinxin.workers.dev/?ip="
                  +:+ ip_address)) as (f & Hurl & He); [reflexivity|].
  exists (exc_msg (fail_exn f)). unfold query_ip_body.
  change (bind_kwarg "query_ip" "ip_address" [("ip_address", VStr ip_address)])
    with (@inr exn pyval (VStr ip_address)).
  cbv beta iota. unfold fetch_json. by rewrite Hurl, He.
Qed.

Lemma query_ip_never_reaches_service_witness :
  exists msg,
    query_ip_body (fun _ => "") sample_requests_get [("ip_address", VStr "8.8.8.8")]
    = Returned (VStr ("Error encountered while querying IP address: " +:+ msg)).
Proof.
  apply (query_ip_never_reaches_service (fun _ => "") sample_requests_get).
  intros url Hurl. unfold sample_requests_get. rewrite Hurl.
  eexists. split; reflexivity.
Defined.

Lemma paragraphs_length docs : forall index,
  length (paragraphs index docs) = length docs.
Proof. induction docs as [|d docs IH]; intros index; simpl; [done | by rewrite IH]. Qed.

Lemma paragraphs_lookup docs : forall index (i : nat),
  paragraphs index docs !! i
  = (fun d => char_di +:+ " " +:+ pretty (index + i + 1)%nat +:+ " "
              +:+ char_duan +:+ ": " +:+ d) <$> docs !! i.
Proof.
  induction docs as [|d docs IH]; intros index i; [by destruct i|].
  destruct i as [|i]; cbn [paragraphs].
  - cbn [lookup list_lookup fmap option_fmap option_map].
    by rewrite Nat.add_0_r.
  - rewrite !lookup_cons. cbn iota. rewrite IH.
    by replace (Datatypes.S index + i + 1)%nat
         with (index + Datatypes.S i + 1)%nat by lia.
Qed.

(** X15. When the embedding and the search succeed, the search is made
    with [k = 4] and [search_knowledge_base] returns the paragraphs joined
    by a blank line: one per document found, in the order found, the
    paragraph at position [i] (from 0) being the text of that document
    labelled with the number [i + 1]. With no document found the result
    is the empty string. *)
Theorem search_knowledge_base_paragraphs frames (vector : Type)
    (embed_query : string -> failure + vector)
    (similarity_search_by_vector : vector -> nat -> failure + list string)
    query_text query_embedding similar_documents :
  embed_query query_text = inr query_embedding ->
  similarity_search_by_vector query_embedding 4%nat = inr similar_documents ->
  exists ps,
    search_knowledge_base_body frames vector embed_query
        similarity_search_by_vector [("query_text", VStr query_text)]
      = Returned (VStr (PyStr.join (PyStr.newline +:+ PyStr.newline) ps)) /\
    length ps = length similar_documents /\
    (forall (i : nat) d, similar_documents !! i = Some d ->
       ps !! i = Some (char_di +:+ " " +:+ pretty (i + 1)%nat +:+ " "
                       +:+ char_duan +:+ ": " +:+ d)) /\
    (similar_documents = [] ->
     PyStr.join (PyStr.newline +:+ PyStr.newline) ps = "").
Proof.
  intros Hembed Hsearch. exists (paragraphs 0 similar_documents). split_and!.
  - unfold search_knowledge_base_body.
    change (bind_kwarg "search_knowledge_base" "query_text"
              [("query_text", VStr query_text)])
      with (@inr exn pyval (VStr query_text)).
    cbv beta iota zeta. by rewrite Hembed, Hsearch.
  - apply paragraphs_length.
  - intros i d Hd. by rewrite paragraphs_lookup, Hd.
  - by intros ->.
Qed.

Lemma search_knowledge_base_paragraphs_witness :
  exists ps,
    search_knowledge_base_body (fun _ => "") nat sample_embed_query sample_search
        [("query_text", VStr "phishing")]
      = Returned (VStr (PyStr.join (PyStr.newline +:+ PyStr.newline) ps)) /\
    length ps = 2%nat.
Proof.
  destruct (search_knowledge_base_paragraphs (fun _ => "") nat sample_embed_query
              sample_search "phishing" 8%nat
              ["first document"; "second document"])
    as (ps & Hret & Hlen & _); [reflexivity..|].
  exists ps. split; [exact Hret | exact Hlen].
Defined.

(** X17. After the module is loaded, dispatching any of the four tools
    with an argument that is not a string gives the traceback of the
    [TypeError] of that tool's own check: no request is made and no
    search is run. *)
Theorem dispatch_rejects_non_string frames requests_get (vector : Type)
    (embed_query : string -> failure + vector)
    (similarity_search_by_vector : vector -> nat -> failure + list string) v :
  (forall s, v <> VStr s) ->
  forall depth,
  let g := module_registry_full frames requests_get vector embed_query
             similarity_search_by_vector in
  dispatch_tool depth "get_weather" [("city_name", v)] g
    = (Ok (format_exc (frames 90%nat) (TypeError "City name must be a string")), g) /\
  dispatch_tool depth "generate_md5" [("input_string", v)] g
    = (Ok (format_exc (frames 114%nat) (TypeError "Input string must be a string")), g) /\
  dispatch_tool depth "search_knowledge_base" [("query_text", v)] g
    = (Ok (format_exc (frames 127%nat) (TypeError "Query text must be a string")), g) /\
  dispatch_tool depth "query_ip" [("ip_address", v)] g
    = (Ok (format_exc (frames 149%nat) (TypeError "IP address must be a string")), g).
Proof.
  intros Hv depth g. split_and!.
  - rewrite (dispatch_tool_found _ _ _ _
               (get_weather (get_weather_body frames requests_get))) by reflexivity.
    destruct v; try done. by destruct (Hv s).
  - rewrite (dispatch_tool_found _ _ _ _ (generate_md5 frames)) by reflexivity.
    destruct v; try done. by destruct (Hv s).
  - rewrite (dispatch_tool_found _ _ _ _
               (search_knowledge_base
                  (search_knowledge_base_body frames vector embed_query
                     similarity_search_by_vector))) by reflexivity.
    destruct v; try done. by destruct (Hv s).
  - rewrite (dispatch_tool_found _ _ _ _
               (query_ip (query_ip_body frames requests_get))) by reflexivity.
    destruct v; try done. by destruct (Hv s).
Qed.

Lemma dispatch_rejects_non_string_witness :
  fst (dispatch_tool 1000 "query_ip" [("ip_address", VInt 8)]
         (module_registry_full (fun _ => "") sample_requests_get nat
            sample_embed_query sample_search))
  = Ok (format_exc "" (TypeError "IP address must be a string")).
Proof.
  exact (f_equal fst
           (proj2 (proj2 (proj2
              (dispatch_rejects_non_string (fun _ => "") sample_requests_get nat
                 sample_embed_query sample_search (VInt 8)
                 ltac:(discriminate) 1000))))).
Defined.

(** X18. The catalog of the module as loaded, whatever the bodies of the
    adapters: the four tools in source order, each with its docstring as
    description and one required parameter whose type tag is
    ["Annotated"]. *)
Theorem module_catalog frames weather search ip :
  let g := module_registry frames weather search ip in
  dict_keys (_TOOL_HOOKS g)
    = ["get_weather"; "generate_md5"; "search_knowledge_base"; "query_ip"] /\
  get_tools g
    = (Ok [("get_weather",
            mkTool "get_weather" "Get the current weather for `city_name`"
              [mkParam "city_name" "The name of the city to be queried"
                       "Annotated" true]);
           ("generate_md5",
            mkTool "generate_md5" "Generate MD5 hash of the provided string."
              [mkParam "input_string" "The input string to hash"
                       "Annotated" true]);
           ("search_knowledge_base",
            mkTool "search_knowledge_base"
              "Search the knowledge base for documents similar to the provided query text."
              [mkParam "query_text"
                       "The text to query in the net security knowledge base"
                       "Annotated" true]);
           ("query_ip",
            mkTool "query_ip" "Query information about a given IP address."
              [mkParam "ip_address" "The IP address to query"
                       "Annotated" true])], g).
Proof. done. Qed.

(** ** Catalogs on the heap *)

Lemma represents_root s g :
  Store.represents s g ->
  (Store.descriptions s < length (Store.objects s))%nat.
Proof.
  intros [_ (F & Htree & _)]. unfold Store.descriptions_tree in Htree.
  inversion Htree as [| |? ? ? ?|root kvs kts F' Hroot Hkeys Hndk Hts]; subst.
  by eapply lookup_lt_Some.
Qed.

(** X21. A catalog is a snapshot. After [get_tools] has returned, a
    registration, successful or not, changes none of the objects of the
    returned structure: it still has the value of the table at the time
    of the call, while the registry goes on to hold the new tool. *)
Theorem catalog_is_snapshot (fs : list pyfunc) (fuel : nat) (func : pyfunc) :
  (5 <= fuel)%nat ->
  let s := Store.load fs in
  let T := Store.descriptions_tree (_TOOL_DESCRIPTIONS (registered fs)) in
  exists v s1 F,
    Store.get_tools fuel s = (Ok v, s1) /\
    Store.tree_at (Store.objects s1) T v F /\
    Store.tree_at (Store.objects (snd (Store.register_tool func s1))) T v F /\
    Store.represents (snd (Store.register_tool func s1))
                     (snd (register_tool func (registered fs))).
Proof.
  intros Hfuel s T.
  pose proof (represents_load fs) as Hrep. fold s in Hrep.
  pose proof (represents_root _ _ Hrep) as Hroot.
  destruct (get_tools_represents s _ fuel Hrep Hfuel)
    as (v & h' & Hget & F & Hv & Hnd & Hfresh & Hlen & Hframe).
  set (s1 := Store.mkState (Store.hooks s) (Store.descriptions s) h') in *.
  assert (Store.represents s1 (registered fs)) as Hrep1
    by (by apply represents_frame).
  exists v, s1, F. split_and!; [done | done | | by apply represents_register].
  destruct (fn_doc func) as [doc|] eqn:Hdoc; cycle 1.
  { by destruct (store_register_tool_fails func s1) as [e ->]; [auto|]. }
  destruct (forallb well_formed_param (fn_params func)) eqn:Hps; cycle 1.
  { by destruct (store_register_tool_fails func s1) as [e ->]; [auto|]. }
  rewrite (store_register_tool_well_formed func doc s1 Hdoc Hps).
  cbn [snd Store.objects Store.descriptions s1].
  destruct (alloc_built 4
              (Store.tool_def_tree
                 (mkTool (fn_name func) (PyStr.strip doc)
                         (map param_of (fn_params func)))) h')
    as (v' & h1 & Halloc & Fv & _ & _ & _ & _ & Hframe1);
    [apply depth_tool_def_tree | apply wf_tool_def_tree |].
  rewrite Halloc. cbn [fst snd].
  apply (proj1 (tree_at_frame h') _ _ _ Hv). intros l Hl.
  rewrite list_lookup_alter_ne.
  - apply Hframe1. by eapply (proj1 (tree_at_allocated h')).
  - intros <-. apply Hfresh in Hl. lia.
Qed.

Lemma catalog_is_snapshot_witness :
  exists v s1 F,
    Store.get_tools 5 (Store.load [lookup_v1]) = (Ok v, s1) /\
    Store.tree_at (Store.objects (snd (Store.register_tool lookup_v2 s1)))
      (Store.descriptions_tree (_TOOL_DESCRIPTIONS (registered [lookup_v1]))) v F.
Proof.
  destruct (catalog_is_snapshot [lookup_v1] 5 lookup_v2)
    as (v & s1 & F & Hget & _ & Htree & _); [lia|].
  exists v, s1, F. split; [exact Hget | exact Htree].
Defined.

(** X22. Two calls of [get_tools] in a row return two structures with
    the same value and no object in common. *)
Theorem get_tools_twice_disjoint (fs : list pyfunc) (fuel : nat) :
  (5 <= fuel)%nat ->
  let s := Store.load fs in
  let T := Store.descriptions_tree (_TOOL_DESCRIPTIONS (registered fs)) in
  exists v1 s1 v2 s2 F1 F2,
    Store.get_tools fuel s = (Ok v1, s1) /\
    Store.get_tools fuel s1 = (Ok v2, s2) /\
    Store.tree_at (Store.objects s2) T v1 F1 /\
    Store.tree_at (Store.objects s2) T v2 F2 /\
    (forall l, l ∈ F1 -> l ∉ F2).
Proof.
  intros Hfuel s T.
  pose proof (represents_load fs) as Hrep. fold s in Hrep.
  destruct (get_tools_represents s _ fuel Hrep Hfuel)
    as (v1 & h1 & Hget1 & F1 & Hv1 & _ & _ & _ & Hframe1).
  set (s1 := Store.mkState (Store.hooks s) (Store.descriptions s) h1) in *.
  assert (Store.represents s1 (registered fs)) as Hrep1
    by (by apply represents_frame).
  destruct (get_tools_represents s1 _ fuel Hrep1 Hfuel)
    as (v2 & h2 & Hget2 & F2 & Hv2 & _ & Hfresh2 & _ & Hframe2).
  assert (forall l, l ∈ F1 -> (l < length h1)%nat) as HF1
    by (intros l Hl; by eapply (proj1 (tree_at_allocated h1))).
  eexists v1, s1, v2, _, F1, F2. split_and!; [done | exact Hget2 | | done |].
  - apply (proj1 (tree_at_frame h1) _ _ _ Hv1). intros l Hl.
    apply Hframe2. by apply HF1.
  - intros l Hl1 Hl2. apply HF1 in Hl1. apply Hfresh2 in Hl2.
    simpl in Hl2. lia.
Qed.

Lemma get_tools_twice_disjoint_witness :
  exists v1 s1 v2 s2,
    Store.get_tools 5 (Store.load [lookup_v1]) = (Ok v1, s1) /\
    Store.get_tools 5 s1 = (Ok v2, s2).
Proof.
  destruct (get_tools_twice_disjoint [lookup_v1] 5)
    as (v1 & s1 & v2 & s2 & F1 & F2 & H1 & H2 & _); [lia|].
  exists v1, s1, v2, s2. split; [exact H1 | exact H2].
Defined.
